(** * mssql_tray: the container monitor of the MSSQL tray application

    A shallow embedding of [ContainerMonitor] (src/mssql_tray.py): the
    status probe [check_status], the edge-triggered [poll] and the
    fire-and-forget actions [start], [stop] and [restart], together with
    the two [str] methods the probe relies on.

    Layout: Python strings, exceptions and the subprocess interface come
    first, then the monitor and its methods in a small state-and-error
    monad, then the properties. *)

From Stdlib Require Import String Ascii.
From Stdlib Require Import List NArith ZArith Bool Lia.
Import ListNotations.

(* ================================================================== *)
(** * Python strings *)
(* ================================================================== *)

(** A Python [str] is a sequence of Unicode code points. *)
Definition codepoint := N.
Definition str := list codepoint.

Definition str_eq_dec : forall a b : str, {a = b} + {a <> b} :=
  list_eq_dec N.eq_dec.

(** Literals: every character of a Rocq string is taken as the code
    point of the same number. *)
Definition py (s : string) : str := map N_of_ascii (list_ascii_of_string s).

Definition TAB : codepoint := 9%N.
Definition LF : codepoint := 10%N.
Definition CR : codepoint := 13%N.
Definition SPACE : codepoint := 32%N.

Definition mem_N (c : codepoint) (l : list codepoint) : bool :=
  existsb (N.eqb c) l.

(** [str.isspace] on one character: the code points CPython's
    [_PyUnicode_IsWhitespace] accepts. [str.strip()] without argument
    removes exactly these. *)
Definition isspace (c : codepoint) : bool :=
  mem_N c [ 9; 10; 11; 12; 13; 28; 29; 30; 31; 32; 133; 160; 5760;
            8192; 8193; 8194; 8195; 8196; 8197; 8198; 8199; 8200; 8201;
            8202; 8232; 8233; 8239; 8287; 12288 ]%N.

(** The line boundaries of [str.splitlines]: CPython's
    [_PyUnicode_IsLinebreak]. *)
Definition islinebreak (c : codepoint) : bool :=
  mem_N c [ 10; 11; 12; 13; 28; 29; 30; 133; 8232; 8233 ]%N.

Fixpoint lstrip (s : str) : str :=
  match s with
  | [] => []
  | c :: s' => if isspace c then lstrip s' else s
  end.

Definition rstrip (s : str) : str := rev (lstrip (rev s)).

(** [s.strip()]: leading and trailing whitespace removed. *)
Definition strip (s : str) : str := rstrip (lstrip s).

(** [s.splitlines()] (keepends false). [cur] holds, reversed, the
    characters of the line being read. A line is emitted at each line
    boundary, and at the end of the string when characters are pending;
    a carriage return directly followed by a line feed is one boundary. *)
Fixpoint splitlines_from (cur : str) (s : str) : list str :=
  match s with
  | [] => match cur with [] => [] | _ :: _ => [rev cur] end
  | c :: s' =>
      if islinebreak c then
        rev cur ::
          (if N.eqb c CR then
             match s' with
             | d :: s'' =>
                 if N.eqb d LF then splitlines_from [] s''
                 else splitlines_from [] s'
             | [] => splitlines_from [] s'
             end
           else splitlines_from [] s')
      else splitlines_from (c :: cur) s'
  end.

Definition splitlines (s : str) : list str := splitlines_from [] s.

(** [x in names] for a list of strings. *)
Definition str_in (x : str) (names : list str) : bool :=
  if in_dec str_eq_dec x names then true else false.

(** Joining names the way a process list prints them: one per line,
    each terminated by a line feed. *)
Definition print_names (names : list str) : str :=
  concat (map (fun n => n ++ [LF]) names).

(* ================================================================== *)
(** * Exceptions and the subprocess interface *)
(* ================================================================== *)

(** The exception classes that matter to the monitor. [OSError] stands
    for the class itself and for its subclasses that are not listed;
    [UnicodeDecodeError] and [MemoryError] are examples of classes
    outside the [OSError] family. *)
Inductive exn : Type :=
| TimeoutExpired        (* subprocess.TimeoutExpired *)
| FileNotFoundError
| PermissionError
| OSError
| UnicodeDecodeError
| MemoryError.

(** [issubclass c d] for the classes above. *)
Definition issubclass (c d : exn) : bool :=
  match c, d with
  | TimeoutExpired, TimeoutExpired => true
  | FileNotFoundError, (FileNotFoundError | OSError) => true
  | PermissionError, (PermissionError | OSError) => true
  | OSError, OSError => true
  | UnicodeDecodeError, UnicodeDecodeError => true
  | MemoryError, MemoryError => true
  | _, _ => false
  end.

(** Does an [except (c1, ..., cn)] clause catch [e]? *)
Definition caught_by (classes : list exn) (e : exn) : bool :=
  existsb (issubclass e) classes.

(** The result of a call: a value, or a raised exception. *)
Inductive result (A : Type) : Type :=
| Return (a : A)
| Raise (e : exn).
Arguments Return {A} a.
Arguments Raise {A} e.

(** [subprocess.CompletedProcess]. *)
Record CompletedProcess : Type := mkCompletedProcess {
  args : list str;
  returncode : Z;
  stdout : str;
  stderr : str
}.

(** What one call of [subprocess.run] does: it returns a completed
    process or raises. *)
Inductive run_outcome : Type :=
| Completed (r : CompletedProcess)
| RunRaises (e : exn).

(** A launched child process: its exit code, [None] for a child that
    never terminates. *)
Record Child : Type := mkChild { exit_code : option Z }.

(** What one call of [subprocess.Popen] does: the child is launched
    and a handle returned, or the launch raises. *)
Inductive popen_outcome : Type :=
| Spawned (child : Child)
| PopenRaises (e : exn).

(** Where a child's output stream goes. *)
Inductive stream : Type := INHERIT | PIPE | DEVNULL.

(** * The container status *)

Inductive ContainerStatus : Type := RUNNING | STOPPED | UNKNOWN.

Definition ContainerStatus_eq_dec :
  forall a b : ContainerStatus, {a = b} + {a <> b}.
Proof. decide equality. Defined.

(** The value of each member of the enumeration. *)
Definition value (s : ContainerStatus) : str :=
  match s with
  | RUNNING => py "running"
  | STOPPED => py "stopped"
  | UNKNOWN => py "unknown"
  end.

(** * The monitor *)

(** A registered callback, identified by a number. Only callable
    objects, which Python treats as true, are registered. *)
Inductive Callback : Type := callback (id : nat).

Record ContainerMonitor : Type := mkContainerMonitor {
  container_name : str;
  mssql_sh_path : str;
  _last_status : option ContainerStatus;
  on_status_change : option Callback
}.

(** What a method does to the outside, in order: a query run to its
    end, a child launched, a wait for a launched child, a call of the
    callback. A callback call records the argument and the monitor as
    the callback finds it. *)
Inductive Event : Type :=
| subprocess_run (argv : list str) (capture_output text : bool) (timeout : N)
| subprocess_Popen (argv : list str) (out err : stream)
| Popen_wait (child : Child)
| callback_call (f : Callback) (arg : ContainerStatus) (self : ContainerMonitor).

(* ================================================================== *)
(** * Methods: a state, trace and exception monad *)
(* ================================================================== *)

(** A method body runs on the monitor [self] and yields a result, the
    monitor as it leaves it, and the events it caused, oldest first.
    An exception keeps the mutations and the events that preceded it. *)
Definition M (A : Type) : Type :=
  ContainerMonitor -> result A * ContainerMonitor * list Event.

Definition ret {A} (a : A) : M A := fun self => (Return a, self, []).

Definition raise {A} (e : exn) : M A := fun self => (Raise e, self, []).

Definition bind {A B} (c : M A) (k : A -> M B) : M B :=
  fun self =>
    match c self with
    | (Return a, self1, t1) =>
        match k a self1 with
        | (r, self2, t2) => (r, self2, t1 ++ t2)
        end
    | (Raise e, self1, t1) => (Raise e, self1, t1)
    end.

(** [try: c  except classes: h]. *)
Definition try_except {A} (c : M A) (classes : list exn) (h : M A) : M A :=
  fun self =>
    match c self with
    | (Return a, self1, t1) => (Return a, self1, t1)
    | (Raise e, self1, t1) =>
        if caught_by classes e then
          match h self1 with
          | (r, self2, t2) => (r, self2, t1 ++ t2)
          end
        else (Raise e, self1, t1)
    end.

Declare Scope monitor_scope.
Delimit Scope monitor_scope with mon.
Notation "x <- c ;; k" := (bind c (fun x => k))
  (at level 61, c at next level, right associativity) : monitor_scope.
Notation "c ;; k" := (bind c (fun _ => k))
  (at level 61, right associativity) : monitor_scope.
Local Open Scope monitor_scope.

Definition emit (ev : Event) : M unit := fun self => (Return tt, self, [ev]).

(** Attribute reads and the one attribute write the methods perform. *)
Definition read {A} (field : ContainerMonitor -> A) : M A :=
  fun self => (Return (field self), self, []).

Definition set_last_status (v : option ContainerStatus) (self : ContainerMonitor)
  : ContainerMonitor :=
  {| container_name := container_name self;
     mssql_sh_path := mssql_sh_path self;
     _last_status := v;
     on_status_change := on_status_change self |}.

Definition set_on_status_change (f : option Callback) (self : ContainerMonitor)
  : ContainerMonitor :=
  {| container_name := container_name self;
     mssql_sh_path := mssql_sh_path self;
     _last_status := _last_status self;
     on_status_change := f |}.

Definition assign_last_status (v : option ContainerStatus) : M unit :=
  fun self => (Return tt, set_last_status v self, []).

(** [subprocess.run(argv, capture_output=.., text=.., timeout=..)],
    with the outcome the outside world gives it. *)
Definition run (argv : list str) (capture_output text : bool) (timeout : N)
  (w : run_outcome) : M CompletedProcess :=
  emit (subprocess_run argv capture_output text timeout) ;;
  match w with
  | Completed r => ret r
  | RunRaises e => raise e
  end.

(** [subprocess.Popen(argv, stdout=.., stderr=..)]. *)
Definition Popen (argv : list str) (out err : stream) (w : popen_outcome)
  : M Child :=
  emit (subprocess_Popen argv out err) ;;
  match w with
  | Spawned child => ret child
  | PopenRaises e => raise e
  end.

(** Calling the registered callback. The callbacks of the application
    return normally and leave the monitor alone. *)
Definition call (f : Callback) (arg : ContainerStatus) : M unit :=
  fun self => (Return tt, self, [callback_call f arg self]).

(** ** ContainerMonitor.__init__ *)
Definition init (container_name mssql_sh_path : str) : ContainerMonitor :=
  {| container_name := container_name;
     mssql_sh_path := mssql_sh_path;
     _last_status := None;
     on_status_change := None |}.

(** ** ContainerMonitor.check_status *)

Definition podman_ps : list str :=
  [py "podman"; py "ps"; py "--format"; py "{{.Names}}"].

Definition check_status (w : run_outcome) : M ContainerStatus :=
  try_except
    (result <- run podman_ps true true 10 w ;;
     let names := splitlines (strip (stdout result)) in
     name <- read container_name ;;
     if str_in name names then ret RUNNING else ret STOPPED)
    [TimeoutExpired; FileNotFoundError; OSError]
    (ret UNKNOWN).

(** ** ContainerMonitor.poll *)

Definition differs (current : ContainerStatus)
  (last : option ContainerStatus) : bool :=
  match last with
  | Some s => if ContainerStatus_eq_dec current s then false else true
  | None => true
  end.

Definition poll (w : run_outcome) : M unit :=
  current <- check_status w ;;
  last <- read _last_status ;;
  if differs current last then
    assign_last_status (Some current) ;;
    f <- read on_status_change ;;
    match f with
    | Some f => call f current
    | None => ret tt
    end
  else ret tt.

(** ** ContainerMonitor.start, stop, restart *)

Definition start (w : popen_outcome) : M unit :=
  path <- read mssql_sh_path ;;
  Popen [path; py "start"] DEVNULL DEVNULL w ;;
  ret tt.

Definition stop (w : popen_outcome) : M unit :=
  path <- read mssql_sh_path ;;
  Popen [path; py "stop"] DEVNULL DEVNULL w ;;
  ret tt.

Definition restart (w : popen_outcome) : M unit :=
  path <- read mssql_sh_path ;;
  Popen [path; py "restart"] DEVNULL DEVNULL w ;;
  ret tt.

(** * Running methods *)

(** The methods of the monitor, each with what the outside world does
    at its one external call. *)
Inductive method : Type :=
| m_check_status (w : run_outcome)
| m_poll (w : run_outcome)
| m_start (w : popen_outcome)
| m_stop (w : popen_outcome)
| m_restart (w : popen_outcome).

Definition invoke (m : method) : M unit :=
  match m with
  | m_check_status w => check_status w ;; ret tt
  | m_poll w => poll w
  | m_start w => start w
  | m_stop w => stop w
  | m_restart w => restart w
  end.

Definition result_of {A} (x : result A * ContainerMonitor * list Event) := fst (fst x).
Definition monitor_of {A} (x : result A * ContainerMonitor * list Event) := snd (fst x).
Definition events_of {A} (x : result A * ContainerMonitor * list Event) := snd x.

(** A test monitor, as the test suite builds it. *)
Definition test_monitor : ContainerMonitor :=
  init (py "mssql-server-test") (py "/fake/mssql.sh").

(** ** Sequences of calls *)

(** Successive [poll] calls, one probe outcome each; an exception that
    leaves [poll] ends the sequence. *)
Fixpoint polls (ws : list run_outcome) : M unit :=
  match ws with
  | [] => ret tt
  | w :: ws' => poll w ;; polls ws'
  end.

(** The events of each [poll] of such a sequence, poll by poll. *)
Fixpoint poll_traces (ws : list run_outcome) (self : ContainerMonitor)
  : list (list Event) :=
  match ws with
  | [] => []
  | w :: ws' =>
      match poll w self with
      | (Return _, self', t) => t :: poll_traces ws' self'
      | (Raise _, _, t) => [t]
      end
  end.

(** The monitor after a sequence of method calls by a caller that
    carries on after an exception. *)
Definition after_calls (ms : list method) (self : ContainerMonitor)
  : ContainerMonitor :=
  fold_left (fun self m => monitor_of (invoke m self)) ms self.

(** The callback calls among some events: callback and argument. *)
Definition callbacks (t : list Event) : list (Callback * ContainerStatus) :=
  flat_map (fun ev => match ev with
                      | callback_call f arg _ => [(f, arg)]
                      | _ => []
                      end) t.

(* ================================================================== *)
(** * Vocabulary of the properties *)
(* ================================================================== *)

(** The names the probe works with: the lines of the output once the
    output as a whole has lost its leading and trailing whitespace. *)
Definition names_of (out : str) : list str := splitlines (strip out).

(** The faults the probe turns into a status: a timeout, and the
    [OSError] family (missing or unexecutable binary, other faults of
    the operating system). *)
Definition probe_fault (e : exn) : Prop :=
  e = TimeoutExpired \/ issubclass e OSError = true.

(** A probe outcome with a classification: the command completed, or
    failed with a probe fault. *)
Definition classifiable (w : run_outcome) : Prop :=
  match w with
  | Completed _ => True
  | RunRaises e => probe_fault e
  end.

(** The three cases of the classification: the command completed and
    the configured name is one of the names; it completed and the name
    is not one of them; it failed with a probe fault. *)
Definition listed (self : ContainerMonitor) (w : run_outcome) : Prop :=
  exists r, w = Completed r /\ In (container_name self) (names_of (stdout r)).

Definition unlisted (self : ContainerMonitor) (w : run_outcome) : Prop :=
  exists r, w = Completed r /\ ~ In (container_name self) (names_of (stdout r)).

Definition failed (w : run_outcome) : Prop :=
  exists e, w = RunRaises e /\ probe_fault e.

(** The probe of [self] observes status [s] on outcome [w]. *)
Definition observes (self : ContainerMonitor) (w : run_outcome)
  (s : ContainerStatus) : Prop :=
  result_of (check_status w self) = Return s.

(** A name as a process list prints it: not empty and free of
    whitespace. *)
Definition name_ok (n : str) : Prop :=
  n <> [] /\ Forall (fun c => isspace c = false) n.

(** A string of whitespace only. *)
Definition blank (s : str) : Prop := Forall (fun c => isspace c = true) s.

(** [l] is [x] with nothing but whitespace around it. *)
Definition padded (x l : str) : Prop :=
  exists pre suf, blank pre /\ blank suf /\ l = pre ++ x ++ suf.

(** What [splitlines_from] goes on with after the line boundary [c]:
    the line feed that follows a carriage return is part of the
    boundary. *)
Definition skip_lf (c : codepoint) (s : str) : str :=
  if N.eqb c CR then
    match s with
    | d :: s' => if N.eqb d LF then s' else s
    | [] => s
    end
  else s.

(** [x] occurs in [l] as a proper substring. *)
Definition proper_substring (x l : str) : Prop :=
  (exists pre suf, l = pre ++ x ++ suf) /\ l <> x.

(** The maximal runs of consecutive equal statuses of a sequence, in
    order. *)
Fixpoint maximal_runs (ss : list ContainerStatus) : list (list ContainerStatus) :=
  match ss with
  | [] => []
  | s :: ss' =>
      match maximal_runs ss' with
      | (t :: run) :: runs =>
          if ContainerStatus_eq_dec s t then (s :: t :: run) :: runs
          else [s] :: (t :: run) :: runs
      | _ => [[s]]
      end
  end.

(** What a run of polls should fire: its first poll calls [f] once
    with the status of the run, its other polls call nothing. *)
Definition run_firing (f : Callback) (run : list ContainerStatus)
  : list (list (Callback * ContainerStatus)) :=
  match run with
  | [] => []
  | s :: rest => [(f, s)] :: map (fun _ => []) rest
  end.

(** What the polls of a sequence should fire, poll by poll, when the
    status before the sequence was [prev]: a poll fires when its status
    differs from the one before it. *)
Fixpoint firing_from (f : Callback) (prev : option ContainerStatus)
  (ss : list ContainerStatus) : list (list (Callback * ContainerStatus)) :=
  match ss with
  | [] => []
  | s :: ss' =>
      (if differs s prev then [(f, s)] else []) :: firing_from f (Some s) ss'
  end.

(** The status of each run, in order. *)
Definition run_heads (runs : list (list ContainerStatus)) : list ContainerStatus :=
  flat_map (fun run => match run with s :: _ => [s] | [] => [] end) runs.

(** No two neighbours of a list are equal. *)
Fixpoint no_adjacent_equal (ss : list ContainerStatus) : Prop :=
  match ss with
  | s :: ((t :: _) as ss') => s <> t /\ no_adjacent_equal ss'
  | _ => True
  end.

(** The one event of a probe. *)
Definition probe_event : Event := subprocess_run podman_ps true true 10.

(** Is a method one of the three actions? *)
Definition is_action (m : method) : bool :=
  match m with
  | m_start _ | m_stop _ | m_restart _ => true
  | _ => false
  end.

Definition is_poll (m : method) : bool :=
  match m with
  | m_poll _ => true
  | _ => false
  end.

(** Closes the side goals of a case of the classification. *)
Ltac classification_case :=
  try tauto; try discriminate; try (intros; exfalso; tauto);
  try (intros _; eexists; reflexivity);
  try (intros [? Hs]; discriminate Hs);
  try (intros ? Hr; discriminate Hr);
  try (intros ? He ?; injection He as <-; (contradiction || reflexivity)).

(* ================================================================== *)
(** * The tray application *)
(* ================================================================== *)

Definition POLL_INTERVAL_MS : N := 5000.

(** ** ContainerStatus.color, ContainerStatus.label

    Each is a dictionary literal with the three members as keys,
    indexed by the member. *)
Definition color (s : ContainerStatus) : str :=
  match s with
  | RUNNING => py "green"
  | STOPPED => py "red"
  | UNKNOWN => py "yellow"
  end.

Definition label (s : ContainerStatus) : str :=
  match s with
  | RUNNING => py "Running"
  | STOPPED => py "Stopped"
  | UNKNOWN => py "Unknown"
  end.

(** ** build_icon *)

(** A pixmap as [build_icon] paints it: its size, the colour it was
    filled with, the render hint, the brush, the pen (a colour and the
    factor it was darkened by) and the ellipse drawn. *)
Record QPixmap : Type := mkQPixmap {
  width : Z;
  height : Z;
  fill : Z * Z * Z * Z;
  antialiasing : bool;
  brush : str;
  pen : str * Z;
  ellipse : Z * Z * Z * Z
}.

Definition build_icon (color : str) : QPixmap :=
  let size := 22%Z in
  let margin := 2%Z in
  {| width := size;
     height := size;
     fill := (0, 0, 0, 0)%Z;
     antialiasing := true;
     brush := color;
     pen := (color, 120%Z);
     ellipse := (margin, margin, size - 2 * margin, size - 2 * margin)%Z |}.

(** ** MssqlTrayApp *)

(** The slots the menu actions are connected to. *)
Inductive menu_slot : Type := slot_start | slot_stop | slot_restart | slot_quit.

(** An entry of the context menu: the status line (an action of its
    own, whose text changes), a separator, or an action with its text
    and its slot. *)
Inductive menu_entry : Type :=
| status_action_entry
| separator
| action (text : str) (slot : menu_slot).

(** The application object: the monitor it shares with its caller, the
    icons by status (a dictionary built over all members of the
    enumeration, so defined on each), what the tray shows, the status
    line of the menu, the menu and the interval of the started timer. *)
Record MssqlTrayApp : Type := mkMssqlTrayApp {
  monitor : ContainerMonitor;
  _icons : ContainerStatus -> QPixmap;
  tray_icon : QPixmap;
  tray_toolTip : str;
  tray_visible : bool;
  status_action_text : str;
  status_action_enabled : bool;
  menu : list menu_entry;
  timer : option N
}.

Definition set_monitor (m : ContainerMonitor) (app : MssqlTrayApp) : MssqlTrayApp :=
  mkMssqlTrayApp m (_icons app) (tray_icon app) (tray_toolTip app)
    (tray_visible app) (status_action_text app) (status_action_enabled app)
    (menu app) (timer app).

(** [tray.setIcon], [tray.setToolTip], [status_action.setText], [tray.show]. *)
Definition setIcon (icon : QPixmap) (app : MssqlTrayApp) : MssqlTrayApp :=
  mkMssqlTrayApp (monitor app) (_icons app) icon (tray_toolTip app)
    (tray_visible app) (status_action_text app) (status_action_enabled app)
    (menu app) (timer app).

Definition setToolTip (tip : str) (app : MssqlTrayApp) : MssqlTrayApp :=
  mkMssqlTrayApp (monitor app) (_icons app) (tray_icon app) tip
    (tray_visible app) (status_action_text app) (status_action_enabled app)
    (menu app) (timer app).

Definition setText (text : str) (app : MssqlTrayApp) : MssqlTrayApp :=
  mkMssqlTrayApp (monitor app) (_icons app) (tray_icon app) (tray_toolTip app)
    (tray_visible app) text (status_action_enabled app)
    (menu app) (timer app).

Definition show (app : MssqlTrayApp) : MssqlTrayApp :=
  mkMssqlTrayApp (monitor app) (_icons app) (tray_icon app) (tray_toolTip app)
    true (status_action_text app) (status_action_enabled app)
    (menu app) (timer app).

(** *** MssqlTrayApp._on_status_change *)
Definition _on_status_change (status : ContainerStatus) (app : MssqlTrayApp)
  : MssqlTrayApp :=
  let app := setIcon (_icons app status) app in
  let app := setToolTip (py "MSSQL: " ++ label status) app in
  setText (py "Status: " ++ label status) app.

(** The bound method [self._on_status_change], as the callback the
    application registers with its monitor. *)
Definition bound_on_status_change : Callback := callback 0.

Definition Callback_eq_dec : forall a b : Callback, {a = b} + {a <> b}.
Proof. decide equality. apply Nat.eq_dec. Defined.

(** The callback calls of some events, run on the application: a call
    of the registered bound method runs [_on_status_change]. The method
    touches the tray and the status line only, never the monitor, so
    running it after the monitor's method gives what running it inside
    gives. *)
Definition deliver (t : list Event) (app : MssqlTrayApp) : MssqlTrayApp :=
  fold_left
    (fun app ev =>
       match ev with
       | callback_call f arg _ =>
           if Callback_eq_dec f bound_on_status_change
           then _on_status_change arg app else app
       | _ => app
       end) t app.

(** A method of [self.monitor], called from the application. *)
Definition on_monitor {A} (c : M A) (app : MssqlTrayApp)
  : result A * MssqlTrayApp * list Event :=
  match c (monitor app) with
  | (r, m, t) => (r, deliver t (set_monitor m app), t)
  end.

(** *** MssqlTrayApp._on_start, _on_stop, _on_restart *)
Definition _on_start (w : popen_outcome) (app : MssqlTrayApp)
  : result unit * MssqlTrayApp * list Event :=
  let app := setToolTip (py "MSSQL: Starting...") app in
  let app := setText (py "Status: Starting...") app in
  let app := setIcon (_icons app UNKNOWN) app in
  on_monitor (start w) app.

Definition _on_stop (w : popen_outcome) (app : MssqlTrayApp)
  : result unit * MssqlTrayApp * list Event :=
  let app := setToolTip (py "MSSQL: Stopping...") app in
  let app := setText (py "Status: Stopping...") app in
  let app := setIcon (_icons app UNKNOWN) app in
  on_monitor (stop w) app.

Definition _on_restart (w : popen_outcome) (app : MssqlTrayApp)
  : result unit * MssqlTrayApp * list Event :=
  let app := setToolTip (py "MSSQL: Restarting...") app in
  let app := setText (py "Status: Restarting...") app in
  let app := setIcon (_icons app UNKNOWN) app in
  on_monitor (restart w) app.

(** *** MssqlTrayApp.__init__

    [w] is the outcome of the query of the initial poll. The tray is
    shown after that poll; an exception that leaves the poll leaves the
    constructor. *)
Definition MssqlTrayApp_init (monitor : ContainerMonitor) (w : run_outcome)
  : result MssqlTrayApp * list Event :=
  let icons := fun status => build_icon (color status) in
  let app :=
    {| monitor := set_on_status_change (Some bound_on_status_change) monitor;
       _icons := icons;
       tray_icon := icons UNKNOWN;
       tray_toolTip := py "MSSQL: checking...";
       tray_visible := false;
       status_action_text := py "Status: checking...";
       status_action_enabled := false;
       menu := [ status_action_entry; separator;
                 action (py "Start") slot_start;
                 action (py "Stop") slot_stop;
                 action (py "Restart") slot_restart;
                 separator;
                 action (py "Quit") slot_quit ];
       timer := Some POLL_INTERVAL_MS |} in
  match on_monitor (poll w) app with
  | (Return _, app', t) => (Return (show app'), t)
  | (Raise e, _, t) => (Raise e, t)
  end.

(** ** The event loop *)

(** What the event loop delivers: the timer fires, with the outcome of
    the query the poll will make, or a menu action is triggered, with
    the outcome of the launch it may make. *)
Inductive signal : Type :=
| timer_timeout (w : run_outcome)
| triggered (slot : menu_slot) (w : popen_outcome).

(** The slot connected to a signal, run on the application; [None] for
    the quit action, which ends the loop. *)
Definition dispatch (sg : signal) (app : MssqlTrayApp)
  : option (result unit * MssqlTrayApp * list Event) :=
  match sg with
  | timer_timeout w => Some (on_monitor (poll w) app)
  | triggered slot_start w => Some (_on_start w app)
  | triggered slot_stop w => Some (_on_stop w app)
  | triggered slot_restart w => Some (_on_restart w app)
  | triggered slot_quit _ => None
  end.

(** The loop on a sequence of signals: it ends with the sequence, at
    the quit action, or at the first slot an exception leaves. *)
Fixpoint exec_ (signals : list signal) (app : MssqlTrayApp)
  : result unit * MssqlTrayApp * list Event :=
  match signals with
  | [] => (Return tt, app, [])
  | sg :: rest =>
      match dispatch sg app with
      | None => (Return tt, app, [])
      | Some (Return _, app', t) =>
          match exec_ rest app' with
          | (r, app'', t') => (r, app'', t ++ t')
          end
      | Some (Raise e, app', t) => (Raise e, app', t)
      end
  end.

(** ** Vocabulary of the tray *)

(** The tray shows [icon] and [text]: the icon, and the text after the
    fixed prefixes of the tooltip and of the status line. *)
Definition shows (app : MssqlTrayApp) (icon : QPixmap) (text : str) : Prop :=
  tray_icon app = icon
  /\ tray_toolTip app = py "MSSQL: " ++ text
  /\ status_action_text app = py "Status: " ++ text.

(** The text an action handler puts up. *)
Definition progress_text (slot : menu_slot) : option str :=
  match slot with
  | slot_start => Some (py "Starting...")
  | slot_stop => Some (py "Stopping...")
  | slot_restart => Some (py "Restarting...")
  | slot_quit => None
  end.

(** The application as the constructor wires it: the callback is
    registered and the icons are the painted ones. *)
Definition wired (app : MssqlTrayApp) : Prop :=
  on_status_change (monitor app) = Some bound_on_status_change
  /\ forall s, _icons app s = build_icon (color s).

(** The tray agrees with itself and with the monitor: it shows the
    status the monitor observed last, with that status's icon, or the
    progress text of an action with the icon of [UNKNOWN]. *)
Definition consistent (app : MssqlTrayApp) : Prop :=
  (exists s, _last_status (monitor app) = Some s
             /\ shows app (build_icon (color s)) (label s))
  \/ (exists slot text, progress_text slot = Some text
                        /\ shows app (build_icon (color UNKNOWN)) text).

(** The verb an action handler has the monitor pass to the script. *)
Definition slot_verb (slot : menu_slot) : option str :=
  match slot with
  | slot_start => Some (py "start")
  | slot_stop => Some (py "stop")
  | slot_restart => Some (py "restart")
  | slot_quit => None
  end.

(** The parts of what a slot or the loop returns. *)
Definition app_result {A} (x : result A * MssqlTrayApp * list Event) := fst (fst x).
Definition app_after {A} (x : result A * MssqlTrayApp * list Event) := snd (fst x).
Definition app_events {A} (x : result A * MssqlTrayApp * list Event) := snd x.

(** The queries and the launches among some events. *)
Definition queries (t : list Event) : list Event :=
  filter (fun ev => match ev with subprocess_run _ _ _ _ => true | _ => false end) t.

Definition launches (t : list Event) : list Event :=
  filter (fun ev => match ev with subprocess_Popen _ _ _ => true | _ => false end) t.

(** The status a sequence of polls ends on, [prev] if it is empty. *)
Definition last_status (prev : option ContainerStatus) (ss : list ContainerStatus)
  : option ContainerStatus :=
  last (map Some ss) prev.

(* ================================================================== *)
(** * Examples: the string methods, and the test suite replayed *)
(* ================================================================== *)

Example splitlines_ex1 :
  splitlines (py "a" ++ [LF; LF] ++ py "b" ++ [CR; LF] ++ py "c" ++ [LF])
  = [py "a"; []; py "b"; py "c"].
Proof. reflexivity. Qed.

Example splitlines_ex2 : splitlines [LF] = [ [] ] /\ splitlines [] = [].
Proof. split; reflexivity. Qed.

Example splitlines_ex3 :
  splitlines (py "a" ++ [LF; CR] ++ py "b") = [py "a"; []; py "b"].
Proof. reflexivity. Qed.

Example strip_ex1 :
  strip ([SPACE; LF] ++ py "a b" ++ [TAB; LF; LF]) = py "a b".
Proof. reflexivity. Qed.

Example test_check_status_running :
  check_status
    (Completed (mkCompletedProcess [] 0 (py "mssql-server-test" ++ [LF]) []))
    test_monitor
  = (Return RUNNING, test_monitor, [subprocess_run podman_ps true true 10]).
Proof. reflexivity. Qed.

Example test_check_status_stopped_empty :
  result_of (check_status (Completed (mkCompletedProcess [] 0 [] [])) test_monitor)
  = Return STOPPED.
Proof. reflexivity. Qed.

Example test_check_status_unknown_on_error :
  result_of (check_status (RunRaises TimeoutExpired) test_monitor) = Return UNKNOWN.
Proof. reflexivity. Qed.

Example test_check_status_multiple_containers :
  result_of (check_status
    (Completed (mkCompletedProcess [] 0
       (print_names [py "postgres-dev"; py "mssql-server-test"; py "redis-cache"]) []))
    test_monitor)
  = Return RUNNING.
Proof. reflexivity. Qed.

Example test_on_status_change_callback :
  let m := set_on_status_change (Some (callback 0))
             (set_last_status (Some STOPPED) test_monitor) in
  let m' := set_last_status (Some RUNNING) m in
  poll (Completed (mkCompletedProcess [] 0 (py "mssql-server-test" ++ [LF]) [])) m
  = (Return tt, m',
     [subprocess_run podman_ps true true 10; callback_call (callback 0) RUNNING m']).
Proof. reflexivity. Qed.

Example test_check_status_stopped_not_listed :
  result_of (check_status
    (Completed (mkCompletedProcess [] 0 (py "other-container" ++ [LF]) []))
    test_monitor)
  = Return STOPPED.
Proof. reflexivity. Qed.

Example test_check_status_unknown_on_exception :
  result_of (check_status (RunRaises FileNotFoundError) test_monitor)
  = Return UNKNOWN.
Proof. reflexivity. Qed.

Example test_no_callback_when_status_unchanged :
  let m := set_on_status_change (Some (callback 0))
             (set_last_status (Some RUNNING) test_monitor) in
  poll (Completed (mkCompletedProcess [] 0 (py "mssql-server-test" ++ [LF]) [])) m
  = (Return tt, m, [subprocess_run podman_ps true true 10]).
Proof. reflexivity. Qed.

Example test_stop_calls_mssql_sh :
  stop (Spawned (mkChild (Some 0%Z))) test_monitor
  = (Return tt, test_monitor,
     [subprocess_Popen [py "/fake/mssql.sh"; py "stop"] DEVNULL DEVNULL]).
Proof. reflexivity. Qed.

Example test_restart_calls_mssql_sh :
  restart (Spawned (mkChild (Some 1%Z))) test_monitor
  = (Return tt, test_monitor,
     [subprocess_Popen [py "/fake/mssql.sh"; py "restart"] DEVNULL DEVNULL]).
Proof. reflexivity. Qed.

Example probe_fault_classes :
  probe_fault TimeoutExpired /\ probe_fault FileNotFoundError
  /\ probe_fault PermissionError /\ probe_fault OSError
  /\ ~ probe_fault UnicodeDecodeError /\ ~ probe_fault MemoryError.
Proof.
  unfold probe_fault. repeat split; auto;
    intros [H | H]; discriminate.
Qed.

Example every_status_observable :
  let self := set_on_status_change (Some (callback 0)) test_monitor in
  observes self (Completed (mkCompletedProcess [] 0 (py "mssql-server-test" ++ [LF]) []))
    RUNNING
  /\ observes self (Completed (mkCompletedProcess [] 0 [] [])) STOPPED
  /\ observes self (RunRaises PermissionError) UNKNOWN.
Proof. repeat split. Qed.

Example test_start_calls_mssql_sh :
  start (Spawned (mkChild None)) test_monitor
  = (Return tt, test_monitor,
     [subprocess_Popen [py "/fake/mssql.sh"; py "start"] DEVNULL DEVNULL]).
Proof. reflexivity. Qed.

(* ================================================================== *)
(** * Equations of the methods *)
(* ================================================================== *)

Lemma str_in_true (x : str) (l : list str) : str_in x l = true <-> In x l.
Proof.
  unfold str_in. destruct (in_dec str_eq_dec x l); split; intros; auto; discriminate.
Qed.

Lemma str_in_false (x : str) (l : list str) : str_in x l = false <-> ~ In x l.
Proof.
  unfold str_in. destruct (in_dec str_eq_dec x l); split; intros; auto;
    try discriminate; contradiction.
Qed.

Lemma check_status_completed (self : ContainerMonitor) (r : CompletedProcess) :
  check_status (Completed r) self
  = (Return (if str_in (container_name self) (names_of (stdout r))
             then RUNNING else STOPPED),
     self, [probe_event]).
Proof.
  unfold check_status, try_except, bind, run, emit, read, ret, names_of; simpl.
  destruct (str_in _ _); reflexivity.
Qed.

Lemma check_status_raises (self : ContainerMonitor) (e : exn) :
  check_status (RunRaises e) self
  = (if caught_by [TimeoutExpired; FileNotFoundError; OSError] e
     then Return UNKNOWN else Raise e,
     self, [probe_event]).
Proof.
  unfold check_status, try_except, bind, run, emit, raise, ret; simpl.
  destruct e; reflexivity.
Qed.

Lemma caught_iff_probe_fault (e : exn) :
  caught_by [TimeoutExpired; FileNotFoundError; OSError] e = true <-> probe_fault e.
Proof.
  unfold probe_fault. destruct e; simpl; split; intros H; auto;
    try discriminate; destruct H as [H | H]; discriminate.
Qed.

(** The probe reads the monitor and never writes it. *)
Lemma check_status_frame (self : ContainerMonitor) (w : run_outcome) :
  monitor_of (check_status w self) = self
  /\ events_of (check_status w self) = [probe_event].
Proof.
  destruct w as [r | e].
  - rewrite check_status_completed. split; reflexivity.
  - rewrite check_status_raises. split; reflexivity.
Qed.

Lemma classifiable_observes (self : ContainerMonitor) (w : run_outcome) :
  classifiable w <-> exists s, observes self w s.
Proof.
  unfold observes. destruct w as [r | e]; simpl.
  - rewrite check_status_completed. unfold result_of; simpl.
    split; intros; eauto.
  - rewrite check_status_raises. rewrite <- caught_iff_probe_fault.
    unfold result_of.
    destruct (caught_by _ e); simpl; split; intros H; eauto; try discriminate.
    destruct H as [s H]. discriminate.
Qed.

(** [poll] on an outcome the probe classifies. *)
Lemma poll_observed (self : ContainerMonitor) (w : run_outcome) (s : ContainerStatus) :
  observes self w s ->
  poll w self
  = if differs s (_last_status self) then
      let self' := set_last_status (Some s) self in
      (Return tt, self',
       probe_event ::
         match on_status_change self with
         | Some f => [callback_call f s self']
         | None => []
         end)
    else (Return tt, self, [probe_event]).
Proof.
  unfold observes, poll, bind. intros H.
  pose proof (check_status_frame self w) as [Hm He].
  destruct (check_status w self) as [[r self1] t].
  unfold result_of, monitor_of, events_of in *. simpl in H, Hm, He.
  rewrite H, Hm, He.
  unfold read, assign_last_status, call, ret. simpl.
  destruct (differs s (_last_status self)); [| reflexivity].
  simpl. destruct (on_status_change self); reflexivity.
Qed.

(** [poll] on an outcome the probe lets through: the exception leaves
    [poll] and nothing has changed. *)
Lemma poll_unclassified (self : ContainerMonitor) (w : run_outcome) (e : exn) :
  result_of (check_status w self) = Raise e ->
  poll w self = (Raise e, self, [probe_event]).
Proof.
  unfold poll, bind. intros H.
  pose proof (check_status_frame self w) as [Hm He].
  destruct (check_status w self) as [[r self1] t].
  unfold result_of, monitor_of, events_of in *. simpl in H, Hm, He.
  rewrite H, Hm, He. reflexivity.
Qed.

Lemma action_spawned (self : ContainerMonitor) (child : Child) :
  start (Spawned child) self
  = (Return tt, self, [subprocess_Popen [mssql_sh_path self; py "start"] DEVNULL DEVNULL])
  /\ stop (Spawned child) self
  = (Return tt, self, [subprocess_Popen [mssql_sh_path self; py "stop"] DEVNULL DEVNULL])
  /\ restart (Spawned child) self
  = (Return tt, self, [subprocess_Popen [mssql_sh_path self; py "restart"] DEVNULL DEVNULL]).
Proof. repeat split. Qed.

Lemma action_launch_fails (self : ContainerMonitor) (e : exn) :
  start (PopenRaises e) self
  = (Raise e, self, [subprocess_Popen [mssql_sh_path self; py "start"] DEVNULL DEVNULL])
  /\ stop (PopenRaises e) self
  = (Raise e, self, [subprocess_Popen [mssql_sh_path self; py "stop"] DEVNULL DEVNULL])
  /\ restart (PopenRaises e) self
  = (Raise e, self, [subprocess_Popen [mssql_sh_path self; py "restart"] DEVNULL DEVNULL]).
Proof. repeat split. Qed.

(* ================================================================== *)
(** * Probe failures *)
(* ================================================================== *)

Lemma polls_return (ws : list run_outcome) :
  Forall classifiable ws ->
  forall self, result_of (polls ws self) = Return tt.
Proof.
  induction 1 as [| w ws Hw _ IH]; intros self; [reflexivity |].
  apply (classifiable_observes self) in Hw. destruct Hw as [s Hs].
  simpl. unfold bind. rewrite (poll_observed _ _ _ Hs).
  destruct (differs s (_last_status self)); simpl.
  - specialize (IH (set_last_status (Some s) self)).
    destruct (polls ws _) as [[r m] t]. exact IH.
  - specialize (IH self). destruct (polls ws _) as [[r m] t]. exact IH.
Qed.

(** C6. A probe that times out, finds no executable engine binary or
    meets another fault of the operating system makes [check_status]
    return [UNKNOWN] instead of raising; [poll] on such a probe returns
    normally, and so does every sequence of polls whose probes complete
    or fail in one of these ways. *)
Theorem probe_failures_become_unknown (self : ContainerMonitor) (e : exn) :
  probe_fault e ->
  result_of (check_status (RunRaises e) self) = Return UNKNOWN
  /\ result_of (poll (RunRaises e) self) = Return tt
  /\ forall ws, Forall classifiable ws ->
       result_of (polls (RunRaises e :: ws) self) = Return tt.
Proof.
  intros He.
  assert (Hobs : observes self (RunRaises e) UNKNOWN).
  { unfold observes. rewrite check_status_raises.
    apply caught_iff_probe_fault in He. rewrite He. reflexivity. }
  split; [exact Hobs |]. split.
  - rewrite (poll_observed _ _ _ Hobs).
    destruct (differs UNKNOWN (_last_status self)); reflexivity.
  - intros ws Hws. apply polls_return. constructor; assumption.
Qed.

Lemma probe_failures_become_unknown_witness :
  probe_fault FileNotFoundError
  /\ result_of (check_status (RunRaises FileNotFoundError) test_monitor)
     = Return UNKNOWN.
Proof.
  assert (H : probe_fault FileNotFoundError) by (right; reflexivity).
  split; [exact H |].
  exact (proj1 (probe_failures_become_unknown test_monitor _ H)).
Defined.

(* ================================================================== *)
(** * The exit code of the probe *)
(* ================================================================== *)

(** C8. The status depends on the standard output of the completed
    command only: two completed commands with the same output get the
    same status whatever their exit codes, and a command that exits
    with a nonzero code and whose names lack the configured one is
    [STOPPED]. *)
Theorem status_ignores_exit_code (self : ContainerMonitor)
  (r1 r2 : CompletedProcess) :
  stdout r1 = stdout r2 ->
  check_status (Completed r1) self = check_status (Completed r2) self
  /\ (returncode r1 <> 0%Z ->
      ~ In (container_name self) (names_of (stdout r1)) ->
      result_of (check_status (Completed r1) self) = Return STOPPED).
Proof.
  intros Hout. rewrite !check_status_completed, Hout. split; [reflexivity |].
  intros _ Habsent. apply str_in_false in Habsent.
  rewrite Habsent. reflexivity.
Qed.

Lemma status_ignores_exit_code_witness :
  let out := print_names [py "postgres-dev"] in
  let r1 := mkCompletedProcess [] 0 out [] in
  let r2 := mkCompletedProcess [] 125 out (py "error") in
  stdout r1 = stdout r2
  /\ check_status (Completed r1) test_monitor
     = check_status (Completed r2) test_monitor.
Proof.
  intros out r1 r2.
  assert (H : stdout r1 = stdout r2) by reflexivity.
  split; [exact H |].
  exact (proj1 (status_ignores_exit_code test_monitor r1 r2 H)).
Defined.

(* ================================================================== *)
(** * The actions *)
(* ================================================================== *)

(** C7. Each action launches the control script once, with its one
    verb and with standard output and standard error discarded, and
    returns at once: whatever the child does afterwards, whether it
    exits with some code or never exits, the action has returned
    normally and its only event is the launch. *)
Theorem actions_fire_and_forget (self : ContainerMonitor) (child : Child) :
  let launch v := [subprocess_Popen [mssql_sh_path self; v] DEVNULL DEVNULL] in
  (result_of (start (Spawned child) self) = Return tt
   /\ events_of (start (Spawned child) self) = launch (py "start"))
  /\ (result_of (stop (Spawned child) self) = Return tt
      /\ events_of (stop (Spawned child) self) = launch (py "stop"))
  /\ (result_of (restart (Spawned child) self) = Return tt
      /\ events_of (restart (Spawned child) self) = launch (py "restart")).
Proof.
  destruct (action_spawned self child) as (H1 & H2 & H3).
  simpl. rewrite H1, H2, H3. repeat split.
Qed.

(** C9. A launch of the control script that fails raises out of the
    action: whatever exception [Popen] raises, [start], [stop] and
    [restart] raise the same exception, having done nothing else than
    the attempt to launch. *)
Theorem launch_failure_propagates (self : ContainerMonitor) (e : exn) :
  let launch v := [subprocess_Popen [mssql_sh_path self; v] DEVNULL DEVNULL] in
  (result_of (start (PopenRaises e) self) = Raise e
   /\ events_of (start (PopenRaises e) self) = launch (py "start"))
  /\ (result_of (stop (PopenRaises e) self) = Raise e
      /\ events_of (stop (PopenRaises e) self) = launch (py "stop"))
  /\ (result_of (restart (PopenRaises e) self) = Raise e
      /\ events_of (restart (PopenRaises e) self) = launch (py "restart")).
Proof.
  destruct (action_launch_fails self e) as (H1 & H2 & H3).
  simpl. rewrite H1, H2, H3. repeat split.
Qed.

Lemma invoke_action_frame (self : ContainerMonitor) (m : method) :
  is_action m = true ->
  monitor_of (invoke m self) = self
  /\ callbacks (events_of (invoke m self)) = [].
Proof.
  destruct m as [w | w | w | w | w]; simpl; try discriminate; intros _;
    destruct w; split; reflexivity.
Qed.

Lemma invoke_check_status_frame (self : ContainerMonitor) (w : run_outcome) :
  monitor_of (invoke (m_check_status w) self) = self.
Proof.
  simpl. unfold bind.
  pose proof (check_status_frame self w) as [Hm _].
  destruct (check_status w self) as [[r self1] t].
  unfold monitor_of in *. simpl in Hm. destruct r; simpl; assumption.
Qed.

(** C10. An action leaves the monitor as it found it, field by field,
    whether the launch succeeds or fails, and calls no callback; a
    method call after which [_last_status] differs is a [poll]. *)
Theorem actions_leave_monitor_unchanged (self : ContainerMonitor) (m : method) :
  (is_action m = true ->
     let self' := monitor_of (invoke m self) in
     container_name self' = container_name self
     /\ mssql_sh_path self' = mssql_sh_path self
     /\ _last_status self' = _last_status self
     /\ on_status_change self' = on_status_change self
     /\ callbacks (events_of (invoke m self)) = [])
  /\ (_last_status (monitor_of (invoke m self)) <> _last_status self ->
      is_poll m = true).
Proof.
  split.
  - intros Ha. destruct (invoke_action_frame self m Ha) as [Hm Hc].
    simpl. rewrite Hm. repeat split. exact Hc.
  - intros Hne. destruct m as [w | w | w | w | w]; try reflexivity; exfalso;
      apply Hne.
    + rewrite invoke_check_status_frame. reflexivity.
    + rewrite (proj1 (invoke_action_frame self (m_start w) eq_refl)). reflexivity.
    + rewrite (proj1 (invoke_action_frame self (m_stop w) eq_refl)). reflexivity.
    + rewrite (proj1 (invoke_action_frame self (m_restart w) eq_refl)). reflexivity.
Qed.

(* ================================================================== *)
(** * One poll *)
(* ================================================================== *)

Lemma differs_true (s : ContainerStatus) (last : option ContainerStatus) :
  differs s last = true <-> last <> Some s.
Proof.
  unfold differs. destruct last as [s0 |].
  - destruct (ContainerStatus_eq_dec s s0); split; intros H;
      try discriminate; try congruence.
  - split; intros; [discriminate | reflexivity].
Qed.

Lemma differs_false (s : ContainerStatus) (last : option ContainerStatus) :
  differs s last = false <-> last = Some s.
Proof.
  unfold differs. destruct last as [s0 |].
  - destruct (ContainerStatus_eq_dec s s0); split; intros H;
      try discriminate; congruence.
  - split; intros; discriminate.
Qed.

(** The monitor after a poll is the monitor before it, possibly with a
    status written to [_last_status]. *)
Lemma poll_monitor (self : ContainerMonitor) (w : run_outcome) :
  monitor_of (poll w self) = self
  \/ exists s, monitor_of (poll w self) = set_last_status (Some s) self.
Proof.
  destruct (result_of (check_status w self)) as [s | e] eqn:E.
  - rewrite (poll_observed self w s E).
    destruct (differs s (_last_status self)); [right; exists s | left]; reflexivity.
  - rewrite (poll_unclassified _ _ _ E). left. reflexivity.
Qed.

Lemma invoke_keeps_observation (self : ContainerMonitor) (m : method) :
  _last_status self <> None ->
  _last_status (monitor_of (invoke m self)) <> None.
Proof.
  intros H. destruct m as [w | w | w | w | w].
  - rewrite invoke_check_status_frame. exact H.
  - simpl. destruct (poll_monitor self w) as [-> | [s ->]]; [exact H | discriminate].
  - rewrite (proj1 (invoke_action_frame self (m_start w) eq_refl)). exact H.
  - rewrite (proj1 (invoke_action_frame self (m_stop w) eq_refl)). exact H.
  - rewrite (proj1 (invoke_action_frame self (m_restart w) eq_refl)). exact H.
Qed.

Lemma after_calls_keeps_observation (ms : list method) :
  forall self, _last_status self <> None ->
               _last_status (after_calls ms self) <> None.
Proof.
  induction ms as [| m ms IH]; intros self H; [exact H |].
  simpl. apply IH. apply invoke_keeps_observation. exact H.
Qed.

(** C3. On a poll whose probe observes [current]: [_last_status] is
    written exactly when [current] differs from it (a missing value
    differs from every status); when it does not differ the monitor is
    untouched and nothing is called; when it differs, the monitor
    becomes the old one with [current] as [_last_status], and the
    registered callback is called exactly once with [current], on the
    monitor already updated, within the poll. *)
Theorem poll_updates_iff_changed (self : ContainerMonitor) (w : run_outcome)
  (current : ContainerStatus) :
  observes self w current ->
  let self' := monitor_of (poll w self) in
  let t := events_of (poll w self) in
  result_of (poll w self) = Return tt
  /\ (_last_status self' <> _last_status self <-> _last_status self <> Some current)
  /\ (_last_status self = Some current -> self' = self /\ t = [probe_event])
  /\ (_last_status self <> Some current ->
      self' = set_last_status (Some current) self
      /\ _last_status self' = Some current
      /\ forall f, on_status_change self = Some f ->
           t = [probe_event; callback_call f current self']
           /\ callbacks t = [(f, current)]).
Proof.
  intros Hobs. simpl. rewrite (poll_observed _ _ _ Hobs).
  destruct (differs current (_last_status self)) eqn:D.
  - apply differs_true in D. unfold result_of, monitor_of, events_of. simpl.
    split; [reflexivity |]. split; [split; auto |].
    split; [intros Heq; contradiction |].
    intros _. split; [reflexivity |]. split; [reflexivity |].
    intros f Hf. rewrite Hf. split; reflexivity.
  - apply differs_false in D. unfold result_of, monitor_of, events_of. simpl.
    split; [reflexivity |]. split; [split; intros Hne; contradiction |].
    split; [intros _; split; reflexivity |].
    intros Hne. contradiction.
Qed.

Lemma poll_updates_iff_changed_witness :
  let self := set_on_status_change (Some (callback 0))
                (set_last_status (Some STOPPED) test_monitor) in
  let w := Completed (mkCompletedProcess [] 0
             (print_names [py "postgres-dev"; py "mssql-server-test"; py "redis-cache"])
             []) in
  observes self w RUNNING
  /\ callbacks (events_of (poll w self)) = [(callback 0, RUNNING)].
Proof.
  intros self w.
  assert (H1 : observes self w RUNNING) by reflexivity.
  assert (H2 : _last_status self <> Some RUNNING) by discriminate.
  split; [exact H1 |].
  destruct (poll_updates_iff_changed self w RUNNING H1) as (_ & _ & _ & H).
  destruct (H H2) as (_ & _ & Hf).
  exact (proj2 (Hf (callback 0) eq_refl)).
Defined.

(** C4 as stated does not hold. The constructor leaves
    [on_status_change] unset, and [poll] calls the callback only when
    one is set: the first poll of a monitor just constructed records
    the status and calls nothing. *)
Lemma first_poll_counterexample :
  let self := init (py "mssql-server-test") (py "/fake/mssql.sh") in
  let w := Completed (mkCompletedProcess [] 0 (py "mssql-server-test" ++ [LF]) []) in
  _last_status self = None
  /\ on_status_change self = None
  /\ poll w self = (Return tt, set_last_status (Some RUNNING) self, [probe_event])
  /\ callbacks (events_of (poll w self)) = [].
Proof. cbv zeta. repeat split. Qed.

(** C4, as the code has it. On a monitor just constructed and given a
    callback, the first poll calls the callback exactly once, with the
    status the probe observes, whichever it is; and after that poll no
    sequence of method calls makes [_last_status] unset again. *)
Theorem first_poll_always_notifies (name path : str) (f : Callback)
  (w : run_outcome) (s : ContainerStatus) :
  let self := set_on_status_change (Some f) (init name path) in
  observes self w s ->
  result_of (poll w self) = Return tt
  /\ callbacks (events_of (poll w self)) = [(f, s)]
  /\ _last_status (monitor_of (poll w self)) = Some s
  /\ forall ms : list method,
       _last_status (after_calls ms (monitor_of (poll w self))) <> None.
Proof.
  intros self Hobs.
  assert (E : poll w self
    = (Return tt, set_last_status (Some s) self,
       [probe_event; callback_call f s (set_last_status (Some s) self)])).
  { rewrite (poll_observed _ _ _ Hobs). reflexivity. }
  rewrite E. repeat split.
  intros ms. apply after_calls_keeps_observation. discriminate.
Qed.

Lemma first_poll_always_notifies_witness :
  let self := set_on_status_change (Some (callback 0)) test_monitor in
  observes self (RunRaises TimeoutExpired) UNKNOWN
  /\ callbacks (events_of (poll (RunRaises TimeoutExpired) self))
     = [(callback 0, UNKNOWN)].
Proof.
  intros self.
  assert (H : observes self (RunRaises TimeoutExpired) UNKNOWN) by reflexivity.
  split; [exact H |].
  exact (proj1 (proj2
    (first_poll_always_notifies (py "mssql-server-test") (py "/fake/mssql.sh")
       (callback 0) (RunRaises TimeoutExpired) UNKNOWN H))).
Defined.

(* ================================================================== *)
(** * Sequences of polls *)
(* ================================================================== *)

(** ** Maximal runs *)

Lemma maximal_runs_cons (s : ContainerStatus) (ss : list ContainerStatus) :
  exists run runs, maximal_runs (s :: ss) = (s :: run) :: runs.
Proof.
  simpl. destruct (maximal_runs ss) as [| [| t run] runs]; eauto.
  destruct (ContainerStatus_eq_dec s t); eauto.
Qed.

Lemma maximal_runs_step (s t : ContainerStatus) (ss run : list ContainerStatus)
  (runs : list (list ContainerStatus)) :
  maximal_runs (t :: ss) = (t :: run) :: runs ->
  maximal_runs (s :: t :: ss)
  = if ContainerStatus_eq_dec s t then (s :: t :: run) :: runs
    else [s] :: (t :: run) :: runs.
Proof.
  intros E. remember (t :: ss) as l eqn:El. simpl. rewrite E. reflexivity.
Qed.

(** The runs, put end to end, are the sequence. *)
Lemma concat_maximal_runs (ss : list ContainerStatus) :
  concat (maximal_runs ss) = ss.
Proof.
  induction ss as [| s ss IH]; [reflexivity |].
  destruct ss as [| t ss]; [reflexivity |].
  destruct (maximal_runs_cons t ss) as (run & runs & E).
  rewrite (maximal_runs_step s _ _ _ _ E). rewrite E in IH.
  destruct (ContainerStatus_eq_dec s t); simpl in *; rewrite IH; reflexivity.
Qed.

(** Every run is one status, repeated at least once. *)
Lemma maximal_runs_constant (ss : list ContainerStatus) :
  Forall (fun run => exists s n, run = repeat s (S n)) (maximal_runs ss).
Proof.
  induction ss as [| s ss IH]; [constructor |].
  destruct ss as [| t ss]; [repeat constructor; exists s, 0; reflexivity |].
  destruct (maximal_runs_cons t ss) as (run & runs & E).
  rewrite (maximal_runs_step s _ _ _ _ E). rewrite E in IH.
  inversion IH as [| x l Hx Hl]; subst.
  destruct (ContainerStatus_eq_dec s t) as [-> | Hne].
  - constructor; [| exact Hl].
    destruct Hx as (s0 & n & Hx). exists s0, (S n).
    simpl in *. injection Hx as -> ->. reflexivity.
  - constructor; [exists s, 0; reflexivity |]. constructor; assumption.
Qed.

(** Neighbouring runs have different statuses: the runs are maximal. *)
Lemma maximal_runs_maximal (ss : list ContainerStatus) :
  no_adjacent_equal (run_heads (maximal_runs ss)).
Proof.
  induction ss as [| s ss IH]; [exact I |].
  destruct ss as [| t ss]; [exact I |].
  destruct (maximal_runs_cons t ss) as (run & runs & E).
  rewrite (maximal_runs_step s _ _ _ _ E). rewrite E in IH.
  destruct (ContainerStatus_eq_dec s t) as [-> | Hne].
  - exact IH.
  - split; assumption.
Qed.

Lemma length_run_heads (ss : list ContainerStatus) :
  length (run_heads (maximal_runs ss)) = length (maximal_runs ss).
Proof.
  pose proof (maximal_runs_constant ss) as H.
  induction H as [| run runs (s & n & ->) _ IH]; [reflexivity |].
  simpl. rewrite IH. reflexivity.
Qed.

(** ** The poll-by-poll description and the runs agree *)

Lemma firing_runs (f : Callback) (ss : list ContainerStatus) :
  forall s,
    concat (map (run_firing f) (maximal_runs (s :: ss)))
    = [(f, s)] :: firing_from f (Some s) ss.
Proof.
  induction ss as [| t ss IH]; intros s; [reflexivity |].
  specialize (IH t).
  destruct (maximal_runs_cons t ss) as (run & runs & E).
  rewrite (maximal_runs_step s _ _ _ _ E). rewrite E in IH.
  simpl in IH. injection IH as IH.
  simpl firing_from. unfold differs.
  destruct (ContainerStatus_eq_dec s t) as [-> | Hne].
  - destruct (ContainerStatus_eq_dec t t) as [_ | Hne]; [| contradiction].
    simpl. rewrite IH. reflexivity.
  - destruct (ContainerStatus_eq_dec t s) as [-> | _]; [contradiction |].
    simpl. rewrite IH. reflexivity.
Qed.

Lemma firing_from_start (f : Callback) (ss : list ContainerStatus) :
  firing_from f None ss = concat (map (run_firing f) (maximal_runs ss)).
Proof.
  destruct ss as [| s ss]; [reflexivity |].
  rewrite firing_runs. reflexivity.
Qed.

Lemma concat_run_firing (f : Callback) (runs : list (list ContainerStatus)) :
  concat (concat (map (run_firing f) runs)) = map (pair f) (run_heads runs).
Proof.
  induction runs as [| run runs IH]; [reflexivity |].
  simpl. rewrite concat_app, IH. unfold run_heads at 2. simpl.
  rewrite map_app. f_equal.
  destruct run as [| s rest]; [reflexivity |].
  simpl. f_equal. induction rest as [| x rest IHr]; [reflexivity | exact IHr].
Qed.

(** ** Polls against the poll-by-poll description *)

Lemma callbacks_app (t1 t2 : list Event) :
  callbacks (t1 ++ t2) = callbacks t1 ++ callbacks t2.
Proof. unfold callbacks. apply flat_map_app. Qed.

Lemma poll_traces_cons (self : ContainerMonitor) (w : run_outcome)
  (ws : list run_outcome) (s : ContainerStatus) :
  observes self w s ->
  poll_traces (w :: ws) self
  = events_of (poll w self) :: poll_traces ws (monitor_of (poll w self)).
Proof.
  intros Hs. change (poll_traces (w :: ws) self)
    with (match poll w self with
          | (Return _, self', t) => t :: poll_traces ws self'
          | (Raise _, _, t) => [t]
          end).
  rewrite (poll_observed _ _ _ Hs).
  destruct (differs s (_last_status self)); reflexivity.
Qed.

Lemma polls_cons_events (self : ContainerMonitor) (w : run_outcome)
  (ws : list run_outcome) (s : ContainerStatus) :
  observes self w s ->
  events_of (polls (w :: ws) self)
  = events_of (poll w self) ++ events_of (polls ws (monitor_of (poll w self))).
Proof.
  intros Hs. change (polls (w :: ws)) with (bind (poll w) (fun _ => polls ws)).
  unfold bind. rewrite (poll_observed _ _ _ Hs).
  destruct (differs s (_last_status self)); cbv zeta;
    unfold monitor_of, events_of; simpl fst; simpl snd;
    destruct (polls ws _) as [[r m] t]; reflexivity.
Qed.

(** One classified poll: the callbacks it calls and the status it leaves. *)
Lemma poll_step (self : ContainerMonitor) (f : Callback) (w : run_outcome)
  (s : ContainerStatus) :
  on_status_change self = Some f ->
  observes self w s ->
  callbacks (events_of (poll w self))
  = (if differs s (_last_status self) then [(f, s)] else [])
  /\ _last_status (monitor_of (poll w self)) = Some s
  /\ on_status_change (monitor_of (poll w self)) = Some f
  /\ container_name (monitor_of (poll w self)) = container_name self.
Proof.
  intros Hf Hs. rewrite (poll_observed _ _ _ Hs), Hf.
  destruct (differs s (_last_status self)) eqn:D.
  - repeat split; assumption.
  - apply differs_false in D. repeat split; assumption.
Qed.

Lemma observes_same_name (a b : ContainerMonitor) (w : run_outcome)
  (s : ContainerStatus) :
  container_name a = container_name b -> observes a w s -> observes b w s.
Proof.
  unfold observes. intros Hn. destruct w as [r | e];
    rewrite ?check_status_completed, ?check_status_raises, ?Hn; auto.
Qed.

Lemma polls_firing (f : Callback) (ws : list run_outcome) :
  forall (ss : list ContainerStatus) (self : ContainerMonitor),
    on_status_change self = Some f ->
    Forall2 (observes self) ws ss ->
    map callbacks (poll_traces ws self) = firing_from f (_last_status self) ss
    /\ callbacks (events_of (polls ws self))
       = concat (firing_from f (_last_status self) ss).
Proof.
  induction ws as [| w ws IH]; intros ss self Hf Hobs;
    inversion Hobs as [| w0 s ws0 ss' Hs Hrest]; subst; [split; reflexivity |].
  destruct (poll_step self f w s Hf Hs) as (Hc & Hl & Hf' & Hn).
  destruct (IH ss' (monitor_of (poll w self)) Hf') as [IH1 IH2].
  { eapply Forall2_impl; [| exact Hrest].
    intros a b. apply observes_same_name. symmetry. exact Hn. }
  rewrite Hl in IH1, IH2.
  rewrite (poll_traces_cons _ _ _ _ Hs), (polls_cons_events _ _ _ _ Hs).
  rewrite callbacks_app, IH2. simpl. rewrite IH1, Hc. split; reflexivity.
Qed.

Lemma Forall2_observes_classifiable (self : ContainerMonitor)
  (ws : list run_outcome) (ss : list ContainerStatus) :
  Forall2 (observes self) ws ss -> Forall classifiable ws.
Proof.
  induction 1 as [| w s ws ss Hs _ IH]; constructor; [| exact IH].
  apply (classifiable_observes self). exists s. exact Hs.
Qed.

(** C2. Polls started on a monitor without previous observation and
    with a callback [f] registered, fed probe outcomes that the probe
    classifies as the statuses [ss]: poll by poll, the first poll of
    each maximal run of equal statuses calls [f] once with the status
    of the run and the other polls of the run call nothing; over the
    whole sequence [f] is called once per maximal run, in order. *)
Theorem callback_once_per_run (self : ContainerMonitor) (f : Callback)
  (ws : list run_outcome) (ss : list ContainerStatus) :
  _last_status self = None ->
  on_status_change self = Some f ->
  Forall2 (observes self) ws ss ->
  result_of (polls ws self) = Return tt
  /\ length (poll_traces ws self) = length ws
  /\ map callbacks (poll_traces ws self)
     = concat (map (run_firing f) (maximal_runs ss))
  /\ callbacks (events_of (polls ws self))
     = map (pair f) (run_heads (maximal_runs ss))
  /\ length (callbacks (events_of (polls ws self))) = length (maximal_runs ss).
Proof.
  intros Hlast Hf Hobs.
  destruct (polls_firing f ws ss self Hf Hobs) as [H1 H2].
  rewrite Hlast, firing_from_start in H1, H2.
  rewrite concat_run_firing in H2.
  split; [apply polls_return; eapply Forall2_observes_classifiable; eauto |].
  split.
  { rewrite <- (length_map callbacks), H1, <- firing_from_start.
    apply Forall2_length in Hobs. rewrite Hobs.
    generalize (@None ContainerStatus). clear.
    induction ss as [| s ss IH]; intros prev; [reflexivity |].
    simpl. rewrite IH. reflexivity. }
  split; [exact H1 |]. split; [exact H2 |].
  rewrite H2, length_map. apply length_run_heads.
Qed.

Lemma callback_once_per_run_witness :
  let self := set_on_status_change (Some (callback 0)) test_monitor in
  let up := Completed (mkCompletedProcess [] 0
              (print_names [py "postgres-dev"; py "mssql-server-test"]) []) in
  let down := Completed (mkCompletedProcess [] 0 (print_names [py "postgres-dev"]) []) in
  let ws := [down; up; up; RunRaises TimeoutExpired; RunRaises OSError; up] in
  let ss := [STOPPED; RUNNING; RUNNING; UNKNOWN; UNKNOWN; RUNNING] in
  _last_status self = None
  /\ on_status_change self = Some (callback 0)
  /\ Forall2 (observes self) ws ss
  /\ callbacks (events_of (polls ws self))
     = [(callback 0, STOPPED); (callback 0, RUNNING);
        (callback 0, UNKNOWN); (callback 0, RUNNING)].
Proof.
  intros self up down ws ss.
  assert (H1 : _last_status self = None) by reflexivity.
  assert (H2 : on_status_change self = Some (callback 0)) by reflexivity.
  assert (H3 : Forall2 (observes self) ws ss) by (repeat constructor).
  split; [exact H1 |]. split; [exact H2 |]. split; [exact H3 |].
  exact (proj1 (proj2 (proj2 (proj2
    (callback_once_per_run self (callback 0) ws ss H1 H2 H3))))).
Defined.

(* ================================================================== *)
(** * The classification of the probe *)
(* ================================================================== *)

Lemma check_status_result (self : ContainerMonitor) (w : run_outcome) :
  result_of (check_status w self)
  = match w with
    | Completed r =>
        Return (if str_in (container_name self) (names_of (stdout r))
                then RUNNING else STOPPED)
    | RunRaises e =>
        if caught_by [TimeoutExpired; FileNotFoundError; OSError] e
        then Return UNKNOWN else Raise e
    end.
Proof.
  destruct w as [r | e];
    [rewrite check_status_completed | rewrite check_status_raises]; reflexivity.
Qed.

Lemma listed_completed (self : ContainerMonitor) (r : CompletedProcess) :
  listed self (Completed r) <-> In (container_name self) (names_of (stdout r)).
Proof.
  unfold listed. split.
  - intros (r0 & Hr & Hin). injection Hr as <-. exact Hin.
  - intros Hin. exists r. split; [reflexivity | exact Hin].
Qed.

Lemma unlisted_completed (self : ContainerMonitor) (r : CompletedProcess) :
  unlisted self (Completed r) <-> ~ In (container_name self) (names_of (stdout r)).
Proof.
  unfold unlisted. split.
  - intros (r0 & Hr & Hin). injection Hr as <-. exact Hin.
  - intros Hin. exists r. split; [reflexivity | exact Hin].
Qed.

Lemma failed_raises (e : exn) : failed (RunRaises e) <-> probe_fault e.
Proof.
  unfold failed. split.
  - intros (e0 & He & Hp). injection He as <-. exact Hp.
  - intros Hp. exists e. split; [reflexivity | exact Hp].
Qed.

Lemma listed_raises (self : ContainerMonitor) (e : exn) :
  ~ listed self (RunRaises e).
Proof. intros (r & Hr & _). discriminate. Qed.

Lemma unlisted_raises (self : ContainerMonitor) (e : exn) :
  ~ unlisted self (RunRaises e).
Proof. intros (r & Hr & _). discriminate. Qed.

Lemma failed_completed (r : CompletedProcess) : ~ failed (Completed r).
Proof. intros (e & He & _). discriminate. Qed.

Lemma names_of_empty : names_of [] = [].
Proof. reflexivity. Qed.

(** C1, as the code has it. The status is [RUNNING] exactly when the
    command completed and the configured name is one of the lines of
    its output, the output having first lost its leading and trailing
    whitespace as a whole; [STOPPED] exactly when the command completed
    and the name is not among these lines, as with an empty output;
    [UNKNOWN] exactly when the command timed out or failed with a fault
    of the [OSError] family. The three cases exclude each other, and an
    outcome has a status exactly when it is in one of them; an
    exception of another class leaves [check_status] as it came. *)
Theorem check_status_classification (self : ContainerMonitor) (w : run_outcome) :
  let res := result_of (check_status w self) in
  (res = Return RUNNING <-> listed self w)
  /\ (res = Return STOPPED <-> unlisted self w)
  /\ (res = Return UNKNOWN <-> failed w)
  /\ ~ (listed self w /\ unlisted self w)
  /\ ~ (listed self w /\ failed w)
  /\ ~ (unlisted self w /\ failed w)
  /\ ((exists s, res = Return s) <-> listed self w \/ unlisted self w \/ failed w)
  /\ (forall r, w = Completed r -> stdout r = [] -> res = Return STOPPED)
  /\ (forall e, w = RunRaises e -> ~ probe_fault e -> res = Raise e).
Proof.
  cbv zeta. rewrite check_status_result. destruct w as [r | e].
  - rewrite listed_completed, unlisted_completed.
    pose proof (failed_completed r) as Hnf.
    destruct (str_in (container_name self) (names_of (stdout r))) eqn:E;
      [apply str_in_true in E | apply str_in_false in E];
      repeat split; classification_case.
    intros r0 Hr Hout. injection Hr as <-.
    rewrite Hout, names_of_empty in E. destruct E.
  - rewrite failed_raises.
    pose proof (listed_raises self e) as Hnl.
    pose proof (unlisted_raises self e) as Hnu.
    pose proof (caught_iff_probe_fault e) as Hc.
    destruct (caught_by [TimeoutExpired; FileNotFoundError; OSError] e).
    + assert (Hf : probe_fault e) by (apply Hc; reflexivity).
      repeat split; classification_case.
    + assert (Hf : ~ probe_fault e) by (intros H; apply Hc in H; discriminate).
      repeat split; classification_case.
Qed.

(** C1 as stated does not hold. With a space before the name, the
    output has the one line " mssql-server-test", which is not the
    configured name, and the command completed, so the claim gives
    [STOPPED]; the probe strips the output first and answers [RUNNING].
    And a probe whose query raises an exception that is neither a
    timeout nor an [OSError] returns none of the three statuses. *)
Lemma check_status_classification_counterexample :
  let out := SPACE :: py "mssql-server-test" ++ [LF] in
  splitlines out = [SPACE :: py "mssql-server-test"]
  /\ ~ In (container_name test_monitor) (splitlines out)
  /\ result_of (check_status (Completed (mkCompletedProcess [] 0 out [])) test_monitor)
     = Return RUNNING
  /\ result_of (check_status (RunRaises UnicodeDecodeError) test_monitor)
     = Raise UnicodeDecodeError.
Proof.
  cbv zeta. split; [reflexivity |]. split; [| split; reflexivity].
  apply str_in_false. reflexivity.
Qed.

(* ================================================================== *)
(** * The probe on a process list *)
(* ================================================================== *)

(** On the output of a process list, names one per line, stripping
    and splitting give the names back, so that the probe answers by
    membership in the list. *)

Lemma islinebreak_isspace (c : codepoint) :
  islinebreak c = true -> isspace c = true.
Proof.
  unfold islinebreak, mem_N. simpl. intros H.
  repeat (apply orb_true_iff in H; destruct H as [H | H]);
    try discriminate; apply N.eqb_eq in H; subst c; reflexivity.
Qed.

Lemma nospace_nobreak (c : codepoint) :
  isspace c = false -> islinebreak c = false.
Proof.
  intros H. destruct (islinebreak c) eqn:E; [| reflexivity].
  apply islinebreak_isspace in E. congruence.
Qed.

Lemma rstrip_space (s : str) (c : codepoint) :
  isspace c = true -> rstrip (s ++ [c]) = rstrip s.
Proof.
  intros H. unfold rstrip. rewrite rev_app_distr. simpl. rewrite H. reflexivity.
Qed.

Lemma rstrip_nospace (s : str) (c : codepoint) :
  isspace c = false -> rstrip (s ++ [c]) = s ++ [c].
Proof.
  intros H. unfold rstrip. rewrite rev_app_distr. simpl. rewrite H.
  change (c :: rev s) with ([c] ++ rev s).
  rewrite rev_app_distr, rev_involutive. reflexivity.
Qed.

Lemma name_ok_last (n : str) :
  name_ok n -> exists n' c, n = n' ++ [c] /\ isspace c = false.
Proof.
  intros [Hne Hall]. destruct (exists_last Hne) as (n' & c & ->).
  exists n', c. split; [reflexivity |].
  apply Forall_app in Hall. destruct Hall as [_ Hc].
  inversion Hc; assumption.
Qed.

Lemma print_names_snoc (ns : list str) (n : str) :
  print_names (ns ++ [n]) = print_names ns ++ n ++ [LF].
Proof.
  unfold print_names. rewrite map_app, concat_app. simpl.
  rewrite app_nil_r. reflexivity.
Qed.

Lemma lstrip_print_names (ns : list str) :
  Forall name_ok ns -> lstrip (print_names ns) = print_names ns.
Proof.
  intros H. destruct H as [| n ns [Hne Hall] _]; [reflexivity |].
  destruct n as [| c n]; [contradiction |].
  inversion Hall as [| c0 n0 Hc _]; subst.
  unfold print_names. simpl. rewrite Hc. reflexivity.
Qed.

Lemma strip_print_names (ns : list str) (n : str) :
  Forall name_ok ns -> name_ok n ->
  strip (print_names (ns ++ [n])) = print_names ns ++ n.
Proof.
  intros Hns Hn. unfold strip.
  rewrite lstrip_print_names by (apply Forall_app; auto).
  rewrite print_names_snoc.
  destruct (name_ok_last n Hn) as (n' & c & -> & Hc).
  rewrite !app_assoc. rewrite rstrip_space by reflexivity.
  apply rstrip_nospace. exact Hc.
Qed.

Lemma splitlines_from_name (n : str) :
  Forall (fun c => isspace c = false) n ->
  forall cur rest,
    splitlines_from cur (n ++ rest) = splitlines_from (rev n ++ cur) rest.
Proof.
  induction 1 as [| c n Hc _ IH]; intros cur rest; [reflexivity |].
  simpl. rewrite (nospace_nobreak c Hc), IH, <- app_assoc. reflexivity.
Qed.

Lemma splitlines_from_LF (cur rest : str) :
  splitlines_from cur (LF :: rest) = rev cur :: splitlines_from [] rest.
Proof. reflexivity. Qed.

Lemma splitlines_names (ns : list str) (n : str) :
  Forall name_ok ns -> name_ok n ->
  splitlines (print_names ns ++ n) = ns ++ [n].
Proof.
  unfold splitlines. intros Hns [Hne Hall].
  induction Hns as [| m ns [_ Hm] _ IH].
  - simpl. rewrite <- (app_nil_r n) at 1.
    rewrite (splitlines_from_name n Hall), app_nil_r. simpl.
    destruct (rev n) as [| c l] eqn:E.
    + apply (f_equal (@rev codepoint)) in E. rewrite rev_involutive in E.
      contradiction.
    + rewrite <- E, rev_involutive. reflexivity.
  - change (print_names (m :: ns)) with ((m ++ [LF]) ++ print_names ns).
    rewrite <- !app_assoc. rewrite (splitlines_from_name m Hm). simpl app.
    rewrite splitlines_from_LF, app_nil_r, rev_involutive, IH. reflexivity.
Qed.

(** The names of a printed process list are the names printed. *)
Lemma names_of_print_names (ns : list str) :
  Forall name_ok ns -> names_of (print_names ns) = ns.
Proof.
  intros H. induction ns as [| n ns _] using rev_ind; [reflexivity |].
  apply Forall_app in H. destruct H as [Hns Hn].
  inversion Hn as [| n0 l0 Hok _]; subst.
  unfold names_of. rewrite (strip_print_names ns n Hns Hok).
  apply splitlines_names; assumption.
Qed.

(** On a printed process list the probe answers [RUNNING] exactly when
    the configured name is in the list, whatever the exit code. *)
Lemma check_status_process_list (self : ContainerMonitor) (ns : list str)
  (argv : list str) (code : Z) (err : str) :
  Forall name_ok ns ->
  result_of (check_status
               (Completed (mkCompletedProcess argv code (print_names ns) err)) self)
  = Return (if str_in (container_name self) ns then RUNNING else STOPPED).
Proof.
  intros H. rewrite check_status_completed. simpl.
  rewrite (names_of_print_names ns H). reflexivity.
Qed.

(* ================================================================== *)
(** * The names and the lines of the raw output *)
(* ================================================================== *)

(** Stripping touches the two ends of the output only: every name the
    probe works with is a line of the raw output, up to whitespace
    around it. *)

Lemma blank_app (a b : str) : blank a -> blank b -> blank (a ++ b).
Proof. intros Ha Hb. apply Forall_app. split; assumption. Qed.

Lemma blank_rev (a : str) : blank a -> blank (rev a).
Proof. apply Forall_rev. Qed.

(** ** What [strip] removes *)

Lemma lstrip_split (s : str) : exists a, blank a /\ s = a ++ lstrip s.
Proof.
  induction s as [| c s (a & Ha & E)]; [exists []; split; [constructor | reflexivity] |].
  simpl. destruct (isspace c) eqn:Hc.
  - exists (c :: a). split; [constructor; assumption |].
    simpl. rewrite <- E. reflexivity.
  - exists []. split; [constructor | reflexivity].
Qed.

Lemma lstrip_head (s : str) :
  lstrip s = [] \/ exists c t, lstrip s = c :: t /\ isspace c = false.
Proof.
  induction s as [| c s IH]; [left; reflexivity |].
  simpl. destruct (isspace c) eqn:Hc; [exact IH |].
  right. exists c, s. split; [reflexivity | exact Hc].
Qed.

Lemma lstrip_snoc (u : str) (c : codepoint) :
  isspace c = false -> lstrip (u ++ [c]) = lstrip u ++ [c].
Proof.
  intros Hc. induction u as [| d u IH]; simpl; [rewrite Hc; reflexivity |].
  destruct (isspace d); [exact IH | reflexivity].
Qed.

Lemma rstrip_split (s : str) : exists b, blank b /\ s = rstrip s ++ b.
Proof.
  destruct (lstrip_split (rev s)) as (a & Ha & E).
  exists (rev a). split; [apply blank_rev; exact Ha |].
  unfold rstrip. rewrite <- rev_app_distr, <- E, rev_involutive. reflexivity.
Qed.

Lemma strip_split (s : str) :
  exists a b, blank a /\ blank b /\ s = a ++ strip s ++ b.
Proof.
  destruct (lstrip_split s) as (a & Ha & Ea).
  destruct (rstrip_split (lstrip s)) as (b & Hb & Eb).
  exists a, b. split; [exact Ha |]. split; [exact Hb |].
  unfold strip. rewrite <- Eb. exact Ea.
Qed.

Lemma strip_head (s : str) :
  strip s = [] \/ exists c t, strip s = c :: t /\ isspace c = false.
Proof.
  unfold strip. destruct (lstrip_head s) as [-> | (c & t & -> & Hc)];
    [left; reflexivity |].
  right. exists c, (rev (lstrip (rev t))). split; [| exact Hc].
  unfold rstrip. simpl rev at 2. rewrite (lstrip_snoc _ c Hc).
  rewrite rev_app_distr. reflexivity.
Qed.

(** ** [splitlines_from], one character at a time *)

Lemma splitlines_from_break (cur : str) (c : codepoint) (s : str) :
  islinebreak c = true ->
  splitlines_from cur (c :: s) = rev cur :: splitlines_from [] (skip_lf c s).
Proof.
  intros H. simpl. rewrite H. unfold skip_lf.
  destruct (N.eqb c CR); [| reflexivity].
  destruct s as [| d s']; [reflexivity |].
  destruct (N.eqb d LF); reflexivity.
Qed.

Lemma splitlines_from_char (cur : str) (c : codepoint) (s : str) :
  islinebreak c = false ->
  splitlines_from cur (c :: s) = splitlines_from (c :: cur) s.
Proof. intros H. simpl. rewrite H. reflexivity. Qed.

Lemma skip_lf_length (c : codepoint) (s : str) :
  length (skip_lf c s) <= length s.
Proof.
  unfold skip_lf. destruct (N.eqb c CR); [| lia].
  destruct s as [| d s']; [lia |]. destruct (N.eqb d LF); simpl; lia.
Qed.

Lemma skip_lf_app (c : codepoint) (s b : str) :
  s <> [] -> skip_lf c (s ++ b) = skip_lf c s ++ b.
Proof.
  intros Hs. unfold skip_lf. destruct (N.eqb c CR); [| reflexivity].
  destruct s as [| d s']; [contradiction |].
  simpl. destruct (N.eqb d LF); reflexivity.
Qed.

Lemma skip_lf_blank (c : codepoint) (s : str) : blank s -> blank (skip_lf c s).
Proof.
  intros H. unfold skip_lf. destruct (N.eqb c CR); [| exact H].
  destruct s as [| d s']; [exact H |].
  destruct (N.eqb d LF); [inversion H; assumption | exact H].
Qed.

Lemma skip_lf_nospace (c d : codepoint) (s : str) :
  isspace d = false -> skip_lf c (d :: s) = d :: s.
Proof.
  intros Hd. unfold skip_lf. destruct (N.eqb c CR); [| reflexivity].
  destruct (N.eqb d LF) eqn:E; [| reflexivity].
  apply N.eqb_eq in E. subst d. discriminate.
Qed.

(** ** Whitespace before and after *)

(** More pending characters at the start change the first line only. *)
Lemma splitlines_from_pending (s : str) :
  forall cur p l,
    In l (splitlines_from cur s) ->
    exists l', In l' (splitlines_from (cur ++ p) s)
               /\ (l' = l \/ l' = rev p ++ l).
Proof.
  induction s as [| c s IH]; intros cur p l Hl.
  - destruct cur as [| c0 cur]; [destruct Hl |].
    destruct Hl as [<- | []].
    exists (rev ((c0 :: cur) ++ p)). split; [left; reflexivity |].
    right. apply rev_app_distr.
  - destruct (islinebreak c) eqn:Hc.
    + rewrite (splitlines_from_break cur _ _ Hc) in Hl.
      rewrite (splitlines_from_break (cur ++ p) _ _ Hc).
      destruct Hl as [<- | Hl].
      * exists (rev (cur ++ p)). split; [left; reflexivity |].
        right. apply rev_app_distr.
      * exists l. split; [right; exact Hl | left; reflexivity].
    + rewrite (splitlines_from_char cur _ _ Hc) in Hl.
      rewrite (splitlines_from_char (cur ++ p) _ _ Hc).
      apply (IH (c :: cur) p l Hl).
Qed.

(** Whitespace before a text that starts with another character: the
    lines of the text follow some lines of whitespace, the first of
    them after some pending whitespace. *)
Lemma splitlines_from_pad_left (d : codepoint) (s : str) :
  isspace d = false ->
  forall n a, length a <= n -> blank a ->
  forall cur, blank cur ->
  exists lines cur',
    blank cur'
    /\ splitlines_from cur (a ++ d :: s) = lines ++ splitlines_from cur' (d :: s).
Proof.
  intros Hd. induction n as [| n IH]; intros a Hn Ha cur Hcur.
  - destruct a; [| simpl in Hn; lia].
    exists [], cur. split; [exact Hcur | reflexivity].
  - destruct a as [| c a]; [exists [], cur; split; [exact Hcur | reflexivity] |].
    inversion Ha as [| c0 a0 Hc Ha']; subst. simpl in Hn.
    simpl app. destruct (islinebreak c) eqn:Hb.
    + rewrite (splitlines_from_break _ _ _ Hb).
      destruct a as [| c1 a1].
      * simpl app. rewrite (skip_lf_nospace c d s Hd).
        exists [rev cur], []. split; [constructor | reflexivity].
      * rewrite skip_lf_app by discriminate.
        destruct (IH (skip_lf c (c1 :: a1))) with (cur := @nil codepoint)
          as (lines & cur' & Hcur' & E).
        { pose proof (skip_lf_length c (c1 :: a1)). simpl in *. lia. }
        { apply skip_lf_blank. exact Ha'. }
        { constructor. }
        exists (rev cur :: lines), cur'. split; [exact Hcur' |].
        rewrite E. reflexivity.
    + rewrite (splitlines_from_char _ _ _ Hb).
      destruct (IH a) with (cur := c :: cur) as (lines & cur' & Hcur' & E).
      { lia. }
      { exact Ha'. }
      { constructor; assumption. }
      exists lines, cur'. split; [exact Hcur' | exact E].
Qed.

(** Whitespace after pending characters: the line they start gets
    whitespace at its end, if anything. *)
Lemma splitlines_from_blank_first (b : str) :
  blank b ->
  forall cur, cur <> [] ->
  exists suf, blank suf /\ In (rev cur ++ suf) (splitlines_from cur b).
Proof.
  induction 1 as [| c b Hc _ IH]; intros cur Hcur.
  - exists []. split; [constructor |]. rewrite app_nil_r.
    destruct cur; [contradiction | left; reflexivity].
  - destruct (islinebreak c) eqn:Hb.
    + rewrite (splitlines_from_break _ _ _ Hb).
      exists []. split; [constructor |]. rewrite app_nil_r. left. reflexivity.
    + rewrite (splitlines_from_char _ _ _ Hb).
      destruct (IH (c :: cur)) as (suf & Hsuf & Hin); [discriminate |].
      exists (c :: suf). split; [constructor; assumption |].
      simpl in Hin. rewrite <- app_assoc in Hin. exact Hin.
Qed.

(** Whitespace after a text: each line of the text is still there,
    with whitespace at its end, if anything. *)
Lemma splitlines_from_pad_right (b : str) :
  blank b ->
  forall n s, length s <= n ->
  forall cur l,
    In l (splitlines_from cur s) ->
    exists suf, blank suf /\ In (l ++ suf) (splitlines_from cur (s ++ b)).
Proof.
  intros Hb. induction n as [| n IH]; intros s Hn cur l Hl.
  - destruct s; [| simpl in Hn; lia]. simpl in Hl.
    destruct cur as [| c0 cur]; [destruct Hl |]. destruct Hl as [<- | []].
    apply (splitlines_from_blank_first b Hb). discriminate.
  - destruct s as [| c s].
    + simpl in Hl. destruct cur as [| c0 cur]; [destruct Hl |].
      destruct Hl as [<- | []].
      apply (splitlines_from_blank_first b Hb). discriminate.
    + simpl in Hn. simpl app. destruct (islinebreak c) eqn:Hc.
      * rewrite (splitlines_from_break _ _ s Hc) in Hl.
        rewrite (splitlines_from_break _ _ (s ++ b) Hc).
        destruct Hl as [<- | Hl].
        { exists []. split; [constructor |]. rewrite app_nil_r. left. reflexivity. }
        destruct s as [| c1 s1].
        { unfold skip_lf in Hl. destruct (N.eqb c CR); destruct Hl. }
        rewrite skip_lf_app by discriminate.
        destruct (IH (skip_lf c (c1 :: s1))) with (cur := @nil codepoint) (l := l)
          as (suf & Hsuf & Hin).
        { pose proof (skip_lf_length c (c1 :: s1)). simpl in *. lia. }
        { exact Hl. }
        exists suf. split; [exact Hsuf | right; exact Hin].
      * rewrite (splitlines_from_char _ _ s Hc) in Hl.
        rewrite (splitlines_from_char _ _ (s ++ b) Hc).
        apply (IH s); [lia | exact Hl].
Qed.

(** ** The names against the raw lines *)

Lemma padded_trans (x y z : str) : padded x y -> padded y z -> padded x z.
Proof.
  intros (p1 & s1 & Hp1 & Hs1 & ->) (p2 & s2 & Hp2 & Hs2 & ->).
  exists (p2 ++ p1), (s1 ++ s2).
  split; [apply blank_app; assumption |].
  split; [apply blank_app; assumption |].
  rewrite <- !app_assoc. reflexivity.
Qed.

(** Every name the probe works with is a line of the raw output with
    its whitespace, if any, removed at one end or both. *)
Lemma names_of_padded (out l : str) :
  In l (names_of out) ->
  exists l', In l' (splitlines out) /\ padded l l'.
Proof.
  unfold names_of. intros Hl.
  destruct (strip_split out) as (a & b & Ha & Hb & E).
  destruct (strip_head out) as [H0 | (d & t & Hcore & Hd)].
  { rewrite H0 in Hl. destruct Hl. }
  unfold splitlines in *.
  destruct (splitlines_from_pad_right b Hb (length (strip out)) (strip out)
              (le_n _) [] l Hl) as (suf & Hsuf & Hin).
  rewrite Hcore in Hin. simpl app in Hin.
  destruct (splitlines_from_pad_left d (t ++ b) Hd (length a) a (le_n _) Ha
              [] (Forall_nil _)) as (lines & cur' & Hcur' & E').
  destruct (splitlines_from_pending (d :: t ++ b) [] cur' (l ++ suf) Hin)
    as (l' & Hl' & Hor).
  exists l'. split.
  - rewrite E, Hcore. simpl app. rewrite E'. apply in_or_app. right. exact Hl'.
  - destruct Hor as [-> | ->].
    + exists [], suf. split; [constructor |]. split; [exact Hsuf | reflexivity].
    + exists (rev cur'), suf. split; [apply blank_rev; exact Hcur' |].
      split; [exact Hsuf | reflexivity].
Qed.

(* ================================================================== *)
(** * Exact matching of the name *)
(* ================================================================== *)

(** C5 as stated does not hold. The output below has the two lines
    "mssql-server-test-2" and "mssql-server-test " (with a space at its
    end); the configured name is not one of them and is a proper
    substring of both, yet the probe, which strips the end of the
    output, answers [RUNNING]. *)
Lemma exact_line_counterexample :
  let name := py "mssql-server-test" in
  let out := py "mssql-server-test-2" ++ [LF] ++ name ++ [SPACE; LF] in
  splitlines out = [py "mssql-server-test-2"; name ++ [SPACE]]
  /\ In (py "mssql-server-test-2") (splitlines out)
  /\ ~ In name (splitlines out)
  /\ Forall (proper_substring name) (splitlines out)
  /\ container_name test_monitor = name
  /\ result_of (check_status (Completed (mkCompletedProcess [] 0 out [])) test_monitor)
     = Return RUNNING.
Proof.
  cbv zeta. split; [reflexivity |]. split; [left; reflexivity |].
  split; [apply str_in_false; reflexivity |].
  split; [| split; reflexivity].
  change (splitlines _)
    with [py "mssql-server-test-2"; py "mssql-server-test" ++ [SPACE]].
  repeat constructor.
  - exists [], (py "-2"). reflexivity.
  - discriminate.
  - exists [], [SPACE]. reflexivity.
  - discriminate.
Qed.

(** C5, as the code has it. Matching is by whole lines, up to the
    whitespace at the two ends of the output, and not by substring.
    When no line of the output, stripped of its leading and trailing
    whitespace as a whole, is the configured name, the status is
    [STOPPED]; so a monitor for "mssql-server-test" whose stripped
    output has the line "mssql-server-test-2" and not the line
    "mssql-server-test" is not [RUNNING]. And a status of [RUNNING]
    means that some line of the raw output is the name with at most
    whitespace around it: a name that occurs in the lines only next to
    other characters never yields [RUNNING]. *)
Theorem exact_line_not_substring (self : ContainerMonitor) (r : CompletedProcess) :
  let name := container_name self in
  let res := result_of (check_status (Completed r) self) in
  ((forall l, In l (names_of (stdout r)) -> l <> name) -> res = Return STOPPED)
  /\ (name = py "mssql-server-test" ->
      In (py "mssql-server-test-2") (names_of (stdout r)) ->
      ~ In (py "mssql-server-test") (names_of (stdout r)) ->
      res <> Return RUNNING)
  /\ (res = Return RUNNING ->
      exists l, In l (splitlines (stdout r)) /\ padded name l)
  /\ ((forall l, In l (splitlines (stdout r)) -> ~ padded name l) ->
      res = Return STOPPED).
Proof.
  cbv zeta. rewrite check_status_completed. unfold result_of. simpl.
  destruct (str_in (container_name self) (names_of (stdout r))) eqn:E;
    [apply str_in_true in E | apply str_in_false in E].
  - destruct (names_of_padded _ _ E) as (l' & Hl' & Hpad).
    split; [intros Hno; exfalso; apply (Hno _ E); reflexivity |].
    split; [intros Hn _ Hnot; rewrite Hn in E; contradiction |].
    split; [intros _; exists l'; split; assumption |].
    intros Hno. exfalso. apply (Hno _ Hl'). exact Hpad.
  - split; [reflexivity |]. split; [intros _ _ _; discriminate |].
    split; [discriminate | reflexivity].
Qed.

Lemma exact_line_not_substring_witness :
  let r := mkCompletedProcess [] 0
             (print_names [py "mssql-server-test-2"; py "my-mssql-server-test"]) [] in
  (forall l, In l (splitlines (stdout r)) -> proper_substring (py "mssql-server-test") l)
  /\ (forall l, In l (names_of (stdout r)) -> l <> container_name test_monitor)
  /\ result_of (check_status (Completed r) test_monitor) = Return STOPPED.
Proof.
  intros r.
  assert (Hsub : forall l, In l (splitlines (stdout r)) ->
                           proper_substring (py "mssql-server-test") l).
  { intros l [<- | [<- | []]].
    - split; [exists [], (py "-2"); reflexivity | discriminate].
    - split; [exists (py "my-"), []; reflexivity | discriminate]. }
  assert (H : forall l, In l (names_of (stdout r)) -> l <> container_name test_monitor).
  { intros l [<- | [<- | []]]; discriminate. }
  split; [exact Hsub |]. split; [exact H |].
  exact (proj1 (exact_line_not_substring test_monitor r) H).
Defined.

(* ================================================================== *)
(** * More on the probe *)
(* ================================================================== *)

Lemma lstrip_blank (s : str) : blank s -> lstrip s = [].
Proof.
  induction 1 as [| c s Hc _ IH]; [reflexivity |]. simpl. rewrite Hc. exact IH.
Qed.

Lemma names_of_blank (s : str) : blank s -> names_of s = [].
Proof.
  intros H. unfold names_of, strip. rewrite (lstrip_blank s H). reflexivity.
Qed.

(** The lines [splitlines_from] gives hold no line boundary, when the
    pending characters hold none. *)
Lemma splitlines_from_no_break (n : nat) :
  forall s, length s <= n ->
  forall cur l,
    Forall (fun c => islinebreak c = false) cur ->
    In l (splitlines_from cur s) ->
    Forall (fun c => islinebreak c = false) l.
Proof.
  induction n as [| n IH]; intros s Hn cur l Hcur Hl.
  - destruct s; [| simpl in Hn; lia]. simpl in Hl.
    destruct cur; [destruct Hl |]. destruct Hl as [<- | []].
    apply Forall_rev. exact Hcur.
  - destruct s as [| c s].
    + simpl in Hl. destruct cur; [destruct Hl |]. destruct Hl as [<- | []].
      apply Forall_rev. exact Hcur.
    + simpl in Hn. destruct (islinebreak c) eqn:Hc.
      * rewrite (splitlines_from_break _ _ _ Hc) in Hl.
        destruct Hl as [<- | Hl]; [apply Forall_rev; exact Hcur |].
        apply (IH (skip_lf c s)) with (cur := @nil codepoint).
        { pose proof (skip_lf_length c s). lia. }
        { constructor. }
        { exact Hl. }
      * rewrite (splitlines_from_char _ _ _ Hc) in Hl.
        apply (IH s) with (cur := c :: cur); [lia | | exact Hl].
        constructor; assumption.
Qed.

Lemma names_of_no_break (out l : str) :
  In l (names_of out) -> Forall (fun c => islinebreak c = false) l.
Proof.
  unfold names_of, splitlines. intros Hl.
  apply (splitlines_from_no_break (length (strip out)) (strip out) (le_n _)
           [] l (Forall_nil _) Hl).
Qed.

(** X1. On a process list as it is printed, one name per line, each
    name not empty and free of whitespace, the probe answers by
    membership: [RUNNING] exactly when the configured name is in the
    list, [STOPPED] exactly when it is not. Two such lists with the
    same members get the same status, whatever their order, their
    repetitions and the rest of the completed process; and a configured
    name that is empty or holds whitespace is never found. *)
Theorem probe_reads_process_list (self : ContainerMonitor) (ns : list str)
  (argv : list str) (code : Z) (err : str) :
  Forall name_ok ns ->
  let res := result_of (check_status
               (Completed (mkCompletedProcess argv code (print_names ns) err)) self) in
  (res = Return RUNNING <-> In (container_name self) ns)
  /\ (res = Return STOPPED <-> ~ In (container_name self) ns)
  /\ (forall ns' argv' code' err',
        (forall n, In n ns <-> In n ns') ->
        result_of (check_status
          (Completed (mkCompletedProcess argv' code' (print_names ns') err')) self)
        = res)
  /\ (~ name_ok (container_name self) -> res = Return STOPPED).
Proof.
  intros Hns. cbv zeta. rewrite !check_status_completed.
  unfold result_of. simpl fst. simpl stdout.
  rewrite (names_of_print_names ns Hns).
  assert (Hnot : ~ name_ok (container_name self) -> ~ In (container_name self) ns).
  { intros Hbad Hin. apply Hbad. rewrite Forall_forall in Hns. apply Hns. exact Hin. }
  destruct (str_in (container_name self) ns) eqn:E;
    [apply str_in_true in E | apply str_in_false in E].
  - split; [split; auto |]. split; [split; [discriminate | contradiction] |].
    split; [| intros Hbad; exfalso; apply (Hnot Hbad E)].
    intros ns' argv' code' err' Hsame.
    rewrite check_status_completed. simpl.
    rewrite names_of_print_names.
    + apply (proj1 (Hsame _)) in E. apply str_in_true in E. rewrite E. reflexivity.
    + rewrite Forall_forall in *. intros n Hn. apply Hns. apply Hsame. exact Hn.
  - split; [split; [discriminate | contradiction] |]. split; [split; auto |].
    split; [| reflexivity].
    intros ns' argv' code' err' Hsame.
    rewrite check_status_completed. simpl.
    rewrite names_of_print_names.
    + assert (E' : ~ In (container_name self) ns').
      { intros Hin. apply E. apply Hsame. exact Hin. }
      apply str_in_false in E'. rewrite E'. reflexivity.
    + rewrite Forall_forall in *. intros n Hn. apply Hns. apply Hsame. exact Hn.
Qed.

Lemma probe_reads_process_list_witness :
  let ns := [py "postgres-dev"; py "mssql-server-test"; py "redis-cache"] in
  Forall name_ok ns
  /\ result_of (check_status
       (Completed (mkCompletedProcess [] 0 (print_names ns) [])) test_monitor)
     = Return RUNNING.
Proof.
  intros ns.
  assert (H : Forall name_ok ns).
  { repeat constructor; try discriminate. }
  split; [exact H |].
  apply (proj2 (proj1 (probe_reads_process_list test_monitor ns [] 0 [] H))).
  right. left. reflexivity.
Defined.

(** X2. Whatever the output, each name the probe compares with the
    configured name is a line of the raw output, possibly without the
    whitespace that line has at its ends, and holds no line boundary. *)
Theorem names_are_trimmed_lines (out l : str) :
  In l (names_of out) ->
  (exists l', In l' (splitlines out) /\ padded l l')
  /\ Forall (fun c => islinebreak c = false) l.
Proof.
  intros Hl. split; [apply names_of_padded; exact Hl |].
  apply (names_of_no_break out). exact Hl.
Qed.

Lemma names_are_trimmed_lines_witness :
  let out := [SPACE] ++ py "a" ++ [LF] ++ py "b" ++ [TAB; LF; LF] in
  In (py "b") (names_of out)
  /\ exists l', In l' (splitlines out) /\ padded (py "b") l'.
Proof.
  intros out.
  assert (H : In (py "b") (names_of out)) by (right; left; reflexivity).
  split; [exact H |].
  exact (proj1 (names_are_trimmed_lines out (py "b") H)).
Defined.

(** X3. An output of whitespace only, the empty output included, gives
    [STOPPED] for every configured name, the empty name too. *)
Theorem blank_output_is_stopped (self : ContainerMonitor) (r : CompletedProcess) :
  blank (stdout r) ->
  check_status (Completed r) self = (Return STOPPED, self, [probe_event]).
Proof.
  intros Hb. rewrite check_status_completed, (names_of_blank _ Hb). reflexivity.
Qed.

Lemma blank_output_is_stopped_witness :
  let r := mkCompletedProcess [] 0 [LF; SPACE; CR; LF; TAB] [] in
  blank (stdout r)
  /\ check_status (Completed r) (init [] (py "/fake/mssql.sh"))
     = (Return STOPPED, init [] (py "/fake/mssql.sh"), [probe_event]).
Proof.
  intros r.
  assert (H : blank (stdout r)) by (repeat constructor).
  split; [exact H |].
  exact (blank_output_is_stopped (init [] (py "/fake/mssql.sh")) r H).
Defined.

(** X4. A configured name that holds a line boundary (a line feed, a
    carriage return, ...) is never [RUNNING]: every completed query is
    [STOPPED], whatever it printed. *)
Theorem name_with_line_break_is_stopped (self : ContainerMonitor)
  (r : CompletedProcess) :
  Exists (fun c => islinebreak c = true) (container_name self) ->
  result_of (check_status (Completed r) self) = Return STOPPED.
Proof.
  intros Hex. rewrite check_status_completed. unfold result_of. simpl.
  destruct (str_in (container_name self) (names_of (stdout r))) eqn:E;
    [| reflexivity].
  apply str_in_true in E. apply names_of_no_break in E.
  apply Exists_exists in Hex. destruct Hex as (c & Hc & Hbreak).
  rewrite Forall_forall in E. rewrite (E c Hc) in Hbreak. discriminate.
Qed.

Lemma name_with_line_break_is_stopped_witness :
  let self := init (py "mssql-server" ++ [LF]) (py "/fake/mssql.sh") in
  let r := mkCompletedProcess [] 0 (py "mssql-server" ++ [LF]) [] in
  Exists (fun c => islinebreak c = true) (container_name self)
  /\ result_of (check_status (Completed r) self) = Return STOPPED.
Proof.
  intros self r.
  assert (H : Exists (fun c => islinebreak c = true) (container_name self)).
  { apply Exists_exists. exists LF. split; [| reflexivity].
    apply in_or_app. right. left. reflexivity. }
  split; [exact H |].
  exact (name_with_line_break_is_stopped self r H).
Defined.

(* ================================================================== *)
(** * More on polls *)
(* ================================================================== *)

Lemma set_last_status_same (self : ContainerMonitor) :
  set_last_status (_last_status self) self = self.
Proof. destruct self. reflexivity. Qed.

Lemma poll_monitor_observed (self : ContainerMonitor) (w : run_outcome)
  (s : ContainerStatus) :
  observes self w s ->
  monitor_of (poll w self) = set_last_status (Some s) self
  /\ result_of (poll w self) = Return tt.
Proof.
  intros Hs. rewrite (poll_observed _ _ _ Hs).
  destruct (differs s (_last_status self)) eqn:D; [split; reflexivity |].
  apply differs_false in D. split; [| reflexivity].
  unfold monitor_of. simpl. rewrite <- D. symmetry. apply set_last_status_same.
Qed.

(** A sequence of polls after a first one the probe classifies. *)
Lemma polls_cons (self : ContainerMonitor) (w : run_outcome)
  (ws : list run_outcome) (s : ContainerStatus) :
  observes self w s ->
  polls (w :: ws) self
  = (result_of (polls ws (monitor_of (poll w self))),
     monitor_of (polls ws (monitor_of (poll w self))),
     events_of (poll w self) ++ events_of (polls ws (monitor_of (poll w self)))).
Proof.
  intros Hs. change (polls (w :: ws)) with (bind (poll w) (fun _ => polls ws)).
  unfold bind. rewrite (poll_observed _ _ _ Hs).
  destruct (differs s (_last_status self)); cbv zeta;
    unfold result_of, monitor_of, events_of; simpl fst; simpl snd;
    destruct (polls ws _) as [[r m] t]; reflexivity.
Qed.

Lemma last_cons_default {A} (l : list A) (a d : A) : last (a :: l) d = last l a.
Proof.
  revert a d. induction l as [| b l IH]; intros a d; [reflexivity |].
  change (last (a :: b :: l) d) with (last (b :: l) d).
  rewrite !IH. reflexivity.
Qed.

Lemma polls_final_monitor (ws : list run_outcome) :
  forall (ss : list ContainerStatus) (self : ContainerMonitor),
    Forall2 (observes self) ws ss ->
    monitor_of (polls ws self)
    = set_last_status (last_status (_last_status self) ss) self.
Proof.
  induction ws as [| w ws IH]; intros ss self Hobs;
    inversion Hobs as [| w0 s ws0 ss' Hs Hrest]; subst.
  - symmetry. apply set_last_status_same.
  - rewrite (polls_cons _ _ _ _ Hs). unfold monitor_of at 1. simpl.
    destruct (poll_monitor_observed _ _ _ Hs) as [Hm _]. rewrite Hm.
    rewrite (IH ss' (set_last_status (Some s) self)).
    + unfold last_status. simpl map. rewrite last_cons_default. reflexivity.
    + eapply Forall2_impl; [| exact Hrest].
      intros a b. apply observes_same_name. reflexivity.
Qed.

Lemma polls_unregistered (ws : list run_outcome) :
  forall (ss : list ContainerStatus) (self : ContainerMonitor),
    on_status_change self = None ->
    Forall2 (observes self) ws ss ->
    callbacks (events_of (polls ws self)) = [].
Proof.
  induction ws as [| w ws IH]; intros ss self Hf Hobs;
    inversion Hobs as [| w0 s ws0 ss' Hs Hrest]; subst; [reflexivity |].
  rewrite (polls_cons _ _ _ _ Hs). unfold events_of at 1. simpl.
  rewrite callbacks_app.
  destruct (poll_monitor_observed _ _ _ Hs) as [Hm _]. rewrite Hm.
  rewrite (IH ss' (set_last_status (Some s) self) Hf).
  - rewrite (poll_observed _ _ _ Hs), Hf.
    destruct (differs s (_last_status self)); reflexivity.
  - eapply Forall2_impl; [| exact Hrest].
    intros a b. apply observes_same_name. reflexivity.
Qed.

(** X5. Polls the probe classifies, started from any previous status
    and with or without a callback: the monitor ends as it began but
    for [_last_status], which is the last status observed; a registered
    callback is called at the polls whose status differs from the one
    just before (for the first poll, from the previous status), and at
    no other; without a callback nothing is called. *)
Theorem polls_from_any_status (self : ContainerMonitor)
  (ws : list run_outcome) (ss : list ContainerStatus) :
  Forall2 (observes self) ws ss ->
  monitor_of (polls ws self)
  = set_last_status (last_status (_last_status self) ss) self
  /\ (forall f, on_status_change self = Some f ->
        map callbacks (poll_traces ws self)
        = firing_from f (_last_status self) ss
        /\ callbacks (events_of (polls ws self))
           = concat (firing_from f (_last_status self) ss))
  /\ (on_status_change self = None ->
      callbacks (events_of (polls ws self)) = []).
Proof.
  intros Hobs. split; [apply polls_final_monitor; exact Hobs |]. split.
  - intros f Hf. apply polls_firing; assumption.
  - intros Hf. apply (polls_unregistered ws ss); assumption.
Qed.

Lemma polls_from_any_status_witness :
  let self := set_on_status_change (Some (callback 7))
                (set_last_status (Some RUNNING) test_monitor) in
  let up := Completed (mkCompletedProcess [] 0
              (print_names [py "mssql-server-test"]) []) in
  let ws := [up; up; RunRaises TimeoutExpired] in
  let ss := [RUNNING; RUNNING; UNKNOWN] in
  Forall2 (observes self) ws ss
  /\ _last_status (monitor_of (polls ws self)) = Some UNKNOWN
  /\ callbacks (events_of (polls ws self)) = [(callback 7, UNKNOWN)].
Proof.
  intros self up ws ss.
  assert (H : Forall2 (observes self) ws ss) by (repeat constructor).
  destruct (polls_from_any_status self ws ss H) as (Hm & Hf & _).
  split; [exact H |]. split.
  - rewrite Hm. reflexivity.
  - exact (proj2 (Hf (callback 7) eq_refl)).
Defined.

(** X6. A poll repeated on the same outcome does nothing the second
    time: same result, the monitor untouched, the query and no call.
    This holds for every outcome, classified or not. *)
Theorem poll_twice_same_outcome (self : ContainerMonitor) (w : run_outcome) :
  let m := monitor_of (poll w self) in
  poll w m = (result_of (poll w self), m, [probe_event]).
Proof.
  cbv zeta. destruct (result_of (check_status w self)) as [s | e] eqn:E.
  - destruct (poll_monitor_observed self w s E) as [Hm Hr]. rewrite Hm, Hr.
    assert (Hs : observes (set_last_status (Some s) self) w s).
    { apply (observes_same_name self); [reflexivity | exact E]. }
    rewrite (poll_observed _ _ _ Hs). simpl _last_status.
    assert (D : differs s (Some s) = false) by (apply differs_false; reflexivity).
    rewrite D. reflexivity.
  - rewrite (poll_unclassified _ _ _ E). unfold monitor_of, result_of. simpl.
    apply poll_unclassified. exact E.
Qed.

Lemma polls_app (ws1 : list run_outcome) :
  forall (ws2 : list run_outcome) (self : ContainerMonitor),
    Forall classifiable ws1 ->
    polls (ws1 ++ ws2) self
    = (result_of (polls ws2 (monitor_of (polls ws1 self))),
       monitor_of (polls ws2 (monitor_of (polls ws1 self))),
       events_of (polls ws1 self) ++ events_of (polls ws2 (monitor_of (polls ws1 self)))).
Proof.
  induction ws1 as [| w ws1 IH]; intros ws2 self Hc.
  - unfold result_of, monitor_of, events_of. simpl.
    destruct (polls ws2 self) as [[r m] t]. reflexivity.
  - inversion Hc as [| w0 l Hw Hrest]; subst.
    apply (classifiable_observes self) in Hw. destruct Hw as [s Hs].
    assert (Hm : monitor_of (polls (w :: ws1) self)
                 = monitor_of (polls ws1 (monitor_of (poll w self))))
      by (rewrite (polls_cons self w ws1 s Hs); reflexivity).
    assert (He : events_of (polls (w :: ws1) self)
                 = events_of (poll w self)
                   ++ events_of (polls ws1 (monitor_of (poll w self))))
      by (rewrite (polls_cons self w ws1 s Hs); reflexivity).
    rewrite Hm, He.
    change ((w :: ws1) ++ ws2) with (w :: (ws1 ++ ws2)).
    rewrite (polls_cons self w (ws1 ++ ws2) s Hs).
    rewrite (IH ws2 _ Hrest).
    unfold result_of, monitor_of, events_of. simpl.
    rewrite app_assoc. reflexivity.
Qed.

(** X7. An exception the probe does not catch (one that is neither a
    timeout nor of the [OSError] family) leaves [poll] as it came: the
    monitor is as the polls before left it, no callback is called for
    that poll, and the sequence of polls ends there, whatever outcomes
    would have followed. *)
Theorem uncaught_exception_ends_polls (self : ContainerMonitor)
  (ws1 ws2 : list run_outcome) (e : exn) :
  Forall classifiable ws1 ->
  ~ probe_fault e ->
  polls (ws1 ++ RunRaises e :: ws2) self
  = (Raise e, monitor_of (polls ws1 self),
     events_of (polls ws1 self) ++ [probe_event]).
Proof.
  intros Hc He. rewrite (polls_app ws1 _ self Hc).
  assert (E : result_of (check_status (RunRaises e) (monitor_of (polls ws1 self)))
              = Raise e).
  { rewrite check_status_raises.
    destruct (caught_by [TimeoutExpired; FileNotFoundError; OSError] e) eqn:C;
      [| reflexivity].
    apply caught_iff_probe_fault in C. contradiction. }
  change (polls (RunRaises e :: ws2))
    with (bind (poll (RunRaises e)) (fun _ => polls ws2)).
  unfold bind. rewrite (poll_unclassified _ _ _ E). reflexivity.
Qed.

Lemma uncaught_exception_ends_polls_witness :
  let self := set_on_status_change (Some (callback 0)) test_monitor in
  let up := Completed (mkCompletedProcess [] 0
              (print_names [py "mssql-server-test"]) []) in
  Forall classifiable [up]
  /\ ~ probe_fault UnicodeDecodeError
  /\ result_of (polls ([up] ++ RunRaises UnicodeDecodeError :: [RunRaises OSError]) self)
     = Raise UnicodeDecodeError.
Proof.
  intros self up.
  assert (H1 : Forall classifiable [up]) by (repeat constructor).
  assert (H2 : ~ probe_fault UnicodeDecodeError).
  { intros [H | H]; discriminate. }
  split; [exact H1 |]. split; [exact H2 |].
  rewrite (uncaught_exception_ends_polls self [up] [RunRaises OSError]
             UnicodeDecodeError H1 H2).
  reflexivity.
Defined.

(** X8. Every call of a method makes one external call, of one kind:
    [check_status] and [poll] run the process list query once, with
    the same arguments each time, and launch nothing, whatever the
    outcome; an action launches the control script once and runs no
    query. *)
Theorem one_external_call_per_method (self : ContainerMonitor) (m : method) :
  if is_action m
  then queries (events_of (invoke m self)) = []
       /\ length (launches (events_of (invoke m self))) = 1
  else queries (events_of (invoke m self)) = [probe_event]
       /\ launches (events_of (invoke m self)) = [].
Proof.
  destruct m as [w | w | w | w | w]; simpl is_action; cbv iota.
  - simpl invoke. unfold bind.
    pose proof (check_status_frame self w) as [_ He].
    destruct (check_status w self) as [[r m] t]. unfold events_of in *.
    simpl in He. subst t. destruct r; split; reflexivity.
  - simpl invoke. destruct (result_of (check_status w self)) as [s | e] eqn:E.
    + rewrite (poll_observed _ _ _ E).
      destruct (differs s (_last_status self)); [| split; reflexivity].
      destruct (on_status_change self); split; reflexivity.
    + rewrite (poll_unclassified _ _ _ E). split; reflexivity.
  - destruct w; split; reflexivity.
  - destruct w; split; reflexivity.
  - destruct w; split; reflexivity.
Qed.

(* ================================================================== *)
(** * The tray application *)
(* ================================================================== *)

Lemma set_monitor_same (app : MssqlTrayApp) : set_monitor (monitor app) app = app.
Proof. destruct app. reflexivity. Qed.

(** A timer tick whose query the probe classifies. *)
Lemma tick_observed (app : MssqlTrayApp) (w : run_outcome) (s : ContainerStatus) :
  wired app ->
  observes (monitor app) w s ->
  on_monitor (poll w) app
  = if differs s (_last_status (monitor app)) then
      let m := set_last_status (Some s) (monitor app) in
      (Return tt, _on_status_change s (set_monitor m app),
       [probe_event; callback_call bound_on_status_change s m])
    else (Return tt, app, [probe_event]).
Proof.
  intros [Hf _] Hs. unfold on_monitor. rewrite (poll_observed _ _ _ Hs), Hf.
  destruct (differs s (_last_status (monitor app))); [reflexivity |].
  simpl. rewrite set_monitor_same. reflexivity.
Qed.

(** A timer tick whose query raises past the probe. *)
Lemma tick_unclassified (app : MssqlTrayApp) (w : run_outcome) (e : exn) :
  result_of (check_status w (monitor app)) = Raise e ->
  on_monitor (poll w) app = (Raise e, app, [probe_event]).
Proof.
  intros E. unfold on_monitor. rewrite (poll_unclassified _ _ _ E).
  simpl. rewrite set_monitor_same. reflexivity.
Qed.

Lemma on_status_change_shows (app : MssqlTrayApp) (s : ContainerStatus) :
  (forall s, _icons app s = build_icon (color s)) ->
  shows (_on_status_change s app) (build_icon (color s)) (label s).
Proof.
  intros Hi. unfold shows, _on_status_change. simpl.
  rewrite Hi. repeat split.
Qed.

(** What a click on one of the three actions does. *)
Lemma click_equation (app : MssqlTrayApp) (slot : menu_slot) (text verb : str)
  (w : popen_outcome) :
  progress_text slot = Some text ->
  slot_verb slot = Some verb ->
  dispatch (triggered slot w) app
  = Some (match w with Spawned _ => Return tt | PopenRaises e => Raise e end,
          setIcon (_icons app UNKNOWN)
            (setText (py "Status: " ++ text) (setToolTip (py "MSSQL: " ++ text) app)),
          [subprocess_Popen [mssql_sh_path (monitor app); verb] DEVNULL DEVNULL]).
Proof.
  intros Ht Hv.
  destruct slot; simpl in Ht, Hv; try discriminate;
    injection Ht as <-; injection Hv as <-;
    destruct w; destruct app; reflexivity.
Qed.

(** X9. A click on Start, Stop or Restart first puts the progress
    text of the action in the tooltip and in the status line, with the
    icon of [UNKNOWN], then launches the control script once with the
    verb of the action; the monitor is not touched. When the launch
    fails the exception leaves the slot, and the tray already shows
    the progress text. *)
Theorem click_shows_progress_and_launches (app : MssqlTrayApp)
  (slot : menu_slot) (text verb : str) (w : popen_outcome) :
  progress_text slot = Some text ->
  slot_verb slot = Some verb ->
  exists r app',
    dispatch (triggered slot w) app = Some (r, app',
      [subprocess_Popen [mssql_sh_path (monitor app); verb] DEVNULL DEVNULL])
    /\ r = match w with Spawned _ => Return tt | PopenRaises e => Raise e end
    /\ shows app' (_icons app UNKNOWN) text
    /\ monitor app' = monitor app
    /\ tray_visible app' = tray_visible app
    /\ menu app' = menu app
    /\ timer app' = timer app.
Proof.
  intros Ht Hv. rewrite (click_equation app slot text verb w Ht Hv).
  eexists. eexists. split; [reflexivity |]. repeat split.
Qed.

Lemma click_shows_progress_and_launches_witness :
  exists app (r : result unit) app',
    progress_text slot_restart = Some (py "Restarting...")
    /\ slot_verb slot_restart = Some (py "restart")
    /\ dispatch (triggered slot_restart (PopenRaises FileNotFoundError)) app
       = Some (r, app',
           [subprocess_Popen [py "/fake/mssql.sh"; py "restart"] DEVNULL DEVNULL])
    /\ r = Raise FileNotFoundError
    /\ tray_toolTip app' = py "MSSQL: Restarting...".
Proof.
  pose (app := mkMssqlTrayApp test_monitor (fun s => build_icon (color s))
                 (build_icon (color RUNNING)) (py "MSSQL: Running") true
                 (py "Status: Running") false [] (Some POLL_INTERVAL_MS)).
  assert (H1 : progress_text slot_restart = Some (py "Restarting...")) by reflexivity.
  assert (H2 : slot_verb slot_restart = Some (py "restart")) by reflexivity.
  destruct (click_shows_progress_and_launches app slot_restart _ _
              (PopenRaises FileNotFoundError) H1 H2)
    as (r & app' & E & Hr & (_ & Htip & _) & _).
  exists app, r, app'. repeat split; assumption.
Defined.

Lemma init_equation (name path : str) (w : run_outcome) (s : ContainerStatus) :
  observes (init name path) w s ->
  let m := set_last_status (Some s)
             (set_on_status_change (Some bound_on_status_change) (init name path)) in
  MssqlTrayApp_init (init name path) w
  = (Return
       {| monitor := m;
          _icons := fun status => build_icon (color status);
          tray_icon := build_icon (color s);
          tray_toolTip := py "MSSQL: " ++ label s;
          tray_visible := true;
          status_action_text := py "Status: " ++ label s;
          status_action_enabled := false;
          menu := [ status_action_entry; separator;
                    action (py "Start") slot_start;
                    action (py "Stop") slot_stop;
                    action (py "Restart") slot_restart;
                    separator;
                    action (py "Quit") slot_quit ];
          timer := Some POLL_INTERVAL_MS |},
     [probe_event; callback_call bound_on_status_change s m]).
Proof.
  intros Hs. cbv zeta. unfold MssqlTrayApp_init.
  match goal with
  | |- context [on_monitor (poll w) ?a] => set (app0 := a)
  end.
  assert (Hw : wired app0) by (split; [reflexivity | intros; reflexivity]).
  assert (Hs0 : observes (monitor app0) w s).
  { apply (observes_same_name (init name path)); [reflexivity | exact Hs]. }
  rewrite (tick_observed app0 w s Hw Hs0). reflexivity.
Qed.

(** X10. The constructor of the application, on a monitor just
    constructed: when the probe classifies the first query, the tray
    is shown with the icon and the label of the status observed, not
    with the "checking..." text it was given first; the callback is
    registered, the timer runs at the poll interval, and the monitor
    has recorded the status. When the first query raises past the
    probe, the exception leaves the constructor. *)
Theorem tray_shows_first_status (name path : str) (w : run_outcome)
  (s : ContainerStatus) :
  observes (init name path) w s ->
  exists app t,
    MssqlTrayApp_init (init name path) w = (Return app, t)
    /\ shows app (build_icon (color s)) (label s)
    /\ tray_visible app = true
    /\ timer app = Some 5000%N
    /\ _last_status (monitor app) = Some s
    /\ container_name (monitor app) = name
    /\ mssql_sh_path (monitor app) = path
    /\ wired app
    /\ callbacks t = [(bound_on_status_change, s)]
    /\ forall e, ~ probe_fault e ->
         MssqlTrayApp_init (init name path) (RunRaises e) = (Raise e, [probe_event]).
Proof.
  intros Hs. pose proof (init_equation name path w s Hs) as E. cbv zeta in E.
  eexists. eexists. split; [exact E |].
  repeat split.
  intros e He. unfold MssqlTrayApp_init.
  rewrite (tick_unclassified _ _ e); [reflexivity |].
  simpl monitor. rewrite check_status_raises.
  destruct (caught_by [TimeoutExpired; FileNotFoundError; OSError] e) eqn:C;
    [| reflexivity].
  apply caught_iff_probe_fault in C. contradiction.
Qed.

Lemma tray_shows_first_status_witness :
  let w := Completed (mkCompletedProcess [] 0 [] []) in
  observes (init (py "mssql-server") (py "/opt/mssql.sh")) w STOPPED
  /\ exists app t,
       MssqlTrayApp_init (init (py "mssql-server") (py "/opt/mssql.sh")) w
       = (Return app, t)
       /\ tray_toolTip app = py "MSSQL: Stopped".
Proof.
  intros w.
  assert (H : observes (init (py "mssql-server") (py "/opt/mssql.sh")) w STOPPED)
    by reflexivity.
  split; [exact H |].
  destruct (tray_shows_first_status _ _ w STOPPED H)
    as (app & t & E & (_ & Htip & _) & _).
  exists app, t. split; assumption.
Defined.

(** ** The invariant of the loop *)

Lemma wired_on_status_change (app : MssqlTrayApp) (s : ContainerStatus)
  (m : ContainerMonitor) :
  wired app ->
  on_status_change m = on_status_change (monitor app) ->
  wired (_on_status_change s (set_monitor m app)).
Proof.
  intros [Hf Hi] Hm. split; [simpl; rewrite Hm; exact Hf | exact Hi].
Qed.

Lemma dispatch_keeps_invariant (sg : signal) (app : MssqlTrayApp) :
  wired app -> consistent app ->
  match dispatch sg app with
  | None => True
  | Some x => wired (app_after x) /\ consistent (app_after x)
  end.
Proof.
  intros Hw Hc. destruct sg as [w | slot w].
  - simpl dispatch.
    destruct (result_of (check_status w (monitor app))) as [s | e] eqn:E.
    + rewrite (tick_observed app w s Hw E).
      destruct (differs s (_last_status (monitor app))); [| split; assumption].
      unfold app_after. simpl fst. simpl snd. split.
      * apply wired_on_status_change; [exact Hw | reflexivity].
      * left. exists s. split; [reflexivity |].
        apply on_status_change_shows. exact (proj2 Hw).
    + rewrite (tick_unclassified app w e E). split; assumption.
  - destruct (progress_text slot) as [text |] eqn:Ht;
      [| destruct slot; try discriminate; exact I].
    assert (Hv : exists verb, slot_verb slot = Some verb)
      by (destruct slot; try discriminate; eexists; reflexivity).
    destruct Hv as [verb Hv].
    rewrite (click_equation app slot text verb w Ht Hv).
    unfold app_after. simpl fst. simpl snd. split.
    + destruct Hw as [Hf Hi]. split; [exact Hf | exact Hi].
    + right. exists slot, text. split; [exact Ht |].
      unfold shows. simpl. rewrite (proj2 Hw). repeat split.
Qed.

Lemma exec_keeps_invariant (signals : list signal) :
  forall app, wired app -> consistent app ->
              wired (app_after (exec_ signals app))
              /\ consistent (app_after (exec_ signals app)).
Proof.
  induction signals as [| sg rest IH]; intros app Hw Hc; [split; assumption |].
  pose proof (dispatch_keeps_invariant sg app Hw Hc) as H.
  simpl exec_. destruct (dispatch sg app) as [[[r app'] t] |];
    [| split; assumption].
  unfold app_after in H. simpl in H. destruct H as [Hw' Hc'].
  destruct r as [u | e]; [| split; assumption].
  specialize (IH app' Hw' Hc').
  destruct (exec_ rest app') as [[r' app''] t']. exact IH.
Qed.

(** X11. From the constructor on, through every sequence of timer
    ticks and menu clicks, and wherever the loop stops (at the end of
    the sequence, at Quit, or at a slot an exception leaves), the tray
    agrees with itself and with the monitor: icon, tooltip and status
    line show one and the same thing, which is either the status the
    monitor recorded last or the progress text of an action with the
    icon of [UNKNOWN]; and the callback stays registered. *)
Theorem tray_stays_consistent (name path : str) (w : run_outcome)
  (app : MssqlTrayApp) (t : list Event) (signals : list signal) :
  MssqlTrayApp_init (init name path) w = (Return app, t) ->
  consistent (app_after (exec_ signals app))
  /\ wired (app_after (exec_ signals app)).
Proof.
  intros E.
  destruct (result_of (check_status w (init name path))) as [s | e] eqn:Hs.
  - rewrite (init_equation name path w s Hs) in E. cbv zeta in E.
    injection E as <- _.
    apply and_comm. apply exec_keeps_invariant.
    + split; [reflexivity | intros; reflexivity].
    + left. exists s. split; [reflexivity |]. repeat split.
  - exfalso. unfold MssqlTrayApp_init in E.
    rewrite (tick_unclassified _ _ e) in E; [discriminate |].
    simpl monitor. rewrite <- Hs. destruct w as [r | e0];
      rewrite ?check_status_completed, ?check_status_raises; reflexivity.
Qed.

Lemma tray_stays_consistent_witness :
  let name := py "mssql-server" in
  let path := py "/opt/mssql.sh" in
  let w := Completed (mkCompletedProcess [] 0 (print_names [name]) []) in
  let signals := [ triggered slot_stop (Spawned (mkChild (Some 0%Z)));
                   timer_timeout w;
                   timer_timeout (Completed (mkCompletedProcess [] 0 [] []));
                   triggered slot_start (PopenRaises PermissionError);
                   timer_timeout w ] in
  exists app t,
    MssqlTrayApp_init (init name path) w = (Return app, t)
    /\ consistent (app_after (exec_ signals app)).
Proof.
  intros name path w signals.
  assert (H : observes (init name path) w RUNNING) by reflexivity.
  pose proof (init_equation name path w RUNNING H) as E. cbv zeta in E.
  eexists. eexists. split; [exact E |].
  exact (proj1 (tray_stays_consistent name path w _ _ signals E)).
Defined.

(** ** Ticks and clicks *)

(** X12. A timer tick whose query the probe classifies, in the
    application as wired: when the status is the one the monitor
    recorded last, nothing of the application changes, whatever the
    tray shows at that time; otherwise the tray takes the icon and the
    label of the new status and the monitor records it. The tray stays
    visible or hidden as it was, the menu and the timer as they were. *)
Theorem tick_changes_tray_only_on_change (app : MssqlTrayApp) (w : run_outcome)
  (s : ContainerStatus) :
  wired app ->
  observes (monitor app) w s ->
  exists x,
    dispatch (timer_timeout w) app = Some x
    /\ app_result x = Return tt
    /\ (_last_status (monitor app) = Some s ->
        app_after x = app /\ app_events x = [probe_event])
    /\ (_last_status (monitor app) <> Some s ->
        shows (app_after x) (build_icon (color s)) (label s)
        /\ _last_status (monitor (app_after x)) = Some s
        /\ callbacks (app_events x) = [(bound_on_status_change, s)])
    /\ tray_visible (app_after x) = tray_visible app
    /\ menu (app_after x) = menu app
    /\ timer (app_after x) = timer app.
Proof.
  intros Hw Hs. eexists. split; [reflexivity |].
  rewrite (tick_observed app w s Hw Hs).
  destruct (differs s (_last_status (monitor app))) eqn:D.
  - apply differs_true in D. unfold app_result, app_after, app_events. simpl.
    split; [reflexivity |]. split; [intros Heq; contradiction |].
    split; [| repeat split].
    intros _. split; [| split; reflexivity].
    unfold shows. simpl. rewrite (proj2 Hw). repeat split.
  - apply differs_false in D. unfold app_result, app_after, app_events. simpl.
    split; [reflexivity |]. split; [intros _; split; reflexivity |].
    split; [intros Hne; contradiction | repeat split].
Qed.

Lemma tick_changes_tray_only_on_change_witness :
  exists app x,
    wired app
    /\ observes (monitor app) (RunRaises TimeoutExpired) UNKNOWN
    /\ dispatch (timer_timeout (RunRaises TimeoutExpired)) app = Some x
    /\ tray_toolTip (app_after x) = py "MSSQL: Unknown".
Proof.
  pose (app := mkMssqlTrayApp
                 (set_last_status (Some RUNNING)
                    (set_on_status_change (Some bound_on_status_change) test_monitor))
                 (fun s => build_icon (color s))
                 (build_icon (color RUNNING)) (py "MSSQL: Running") true
                 (py "Status: Running") false [] (Some POLL_INTERVAL_MS)).
  assert (H1 : wired app) by (split; [reflexivity | intros; reflexivity]).
  assert (H2 : observes (monitor app) (RunRaises TimeoutExpired) UNKNOWN)
    by reflexivity.
  assert (H3 : _last_status (monitor app) <> Some UNKNOWN) by discriminate.
  destruct (tick_changes_tray_only_on_change app _ UNKNOWN H1 H2)
    as (x & E & _ & _ & Hch & _).
  destruct (Hch H3) as ((_ & Htip & _) & _).
  exists app, x. repeat split; assumption.
Defined.

Lemma exec_cons (sg : signal) (rest : list signal) (app app' : MssqlTrayApp)
  (u : unit) (t : list Event) :
  dispatch sg app = Some (Return u, app', t) ->
  exec_ (sg :: rest) app
  = (app_result (exec_ rest app'), app_after (exec_ rest app'),
     t ++ app_events (exec_ rest app')).
Proof.
  intros E. simpl exec_. rewrite E.
  destruct (exec_ rest app') as [[r a] t']. reflexivity.
Qed.

(** Ticks that observe the status recorded last pass without a trace
    in the application. *)
Lemma exec_ticks_same (ws : list run_outcome) :
  forall (rest : list signal) (app : MssqlTrayApp) (s : ContainerStatus),
    wired app ->
    _last_status (monitor app) = Some s ->
    Forall (fun w => observes (monitor app) w s) ws ->
    exec_ (map timer_timeout ws ++ rest) app
    = (app_result (exec_ rest app), app_after (exec_ rest app),
       map (fun _ => probe_event) ws ++ app_events (exec_ rest app)).
Proof.
  induction ws as [| w ws IH]; intros rest app s Hw Hl Hobs.
  - simpl. destruct (exec_ rest app) as [[r a] t]. reflexivity.
  - inversion Hobs as [| w0 l Hs Hrest]; subst.
    assert (E : dispatch (timer_timeout w) app = Some (Return tt, app, [probe_event])).
    { simpl dispatch. rewrite (tick_observed app w s Hw Hs).
      assert (D : differs s (_last_status (monitor app)) = false)
        by (apply differs_false; exact Hl).
      rewrite D. reflexivity. }
    change (map timer_timeout (w :: ws) ++ rest)
      with (timer_timeout w :: (map timer_timeout ws ++ rest)).
    rewrite (exec_cons _ _ _ _ _ _ E).
    rewrite (IH rest app s Hw Hl Hrest).
    unfold app_result, app_after, app_events. reflexivity.
Qed.

(** X13. The progress text of an action stays until the status
    changes. After a click on Start, Stop or Restart whose launch
    succeeded, with the monitor having recorded [s]: as long as the
    polls observe [s] again, the tray keeps the progress text and the
    icon of [UNKNOWN] (so for ever, if the action changes nothing); the
    first poll that observes another status puts that status up. *)
Theorem progress_text_sticks (app : MssqlTrayApp) (slot : menu_slot) (text : str)
  (child : Child) (s : ContainerStatus) (ws : list run_outcome) :
  wired app ->
  _last_status (monitor app) = Some s ->
  progress_text slot = Some text ->
  Forall (fun w => observes (monitor app) w s) ws ->
  let click := triggered slot (Spawned child) in
  let x := exec_ (click :: map timer_timeout ws) app in
  app_result x = Return tt
  /\ shows (app_after x) (build_icon (color UNKNOWN)) text
  /\ _last_status (monitor (app_after x)) = Some s
  /\ forall w' s',
       observes (monitor app) w' s' -> s' <> s ->
       let x' := exec_ (click :: map timer_timeout ws ++ [timer_timeout w']) app in
       app_result x' = Return tt
       /\ shows (app_after x') (build_icon (color s')) (label s')
       /\ _last_status (monitor (app_after x')) = Some s'.
Proof.
  intros Hw Hl Ht Hobs. cbv zeta.
  assert (Hv : exists verb, slot_verb slot = Some verb)
    by (destruct slot; try discriminate; eexists; reflexivity).
  destruct Hv as [verb Hv].
  pose proof (click_equation app slot text verb (Spawned child) Ht Hv) as E.
  set (app1 := setIcon (_icons app UNKNOWN)
                 (setText (py "Status: " ++ text)
                    (setToolTip (py "MSSQL: " ++ text) app))) in *.
  assert (Hw1 : wired app1) by (destruct Hw as [Hf Hi]; split; [exact Hf | exact Hi]).
  assert (Hshow : shows app1 (build_icon (color UNKNOWN)) text).
  { unfold shows, app1. simpl. rewrite (proj2 Hw). repeat split. }
  split; [| split; [| split]].
  - rewrite (exec_cons _ _ _ _ _ _ E).
    rewrite <- (app_nil_r (map timer_timeout ws)).
    rewrite (exec_ticks_same ws [] app1 s Hw1 Hl Hobs). reflexivity.
  - rewrite (exec_cons _ _ _ _ _ _ E).
    rewrite <- (app_nil_r (map timer_timeout ws)).
    rewrite (exec_ticks_same ws [] app1 s Hw1 Hl Hobs). exact Hshow.
  - rewrite (exec_cons _ _ _ _ _ _ E).
    rewrite <- (app_nil_r (map timer_timeout ws)).
    rewrite (exec_ticks_same ws [] app1 s Hw1 Hl Hobs). exact Hl.
  - intros w' s' Hs' Hne.
    rewrite (exec_cons _ _ _ _ _ _ E).
    rewrite (exec_ticks_same ws [timer_timeout w'] app1 s Hw1 Hl Hobs).
    assert (D : differs s' (_last_status (monitor app1)) = true).
    { apply differs_true. simpl. rewrite Hl. congruence. }
    assert (E' : exec_ [timer_timeout w'] app1
                 = (Return tt,
                    _on_status_change s'
                      (set_monitor (set_last_status (Some s') (monitor app1)) app1),
                    [probe_event;
                     callback_call bound_on_status_change s'
                       (set_last_status (Some s') (monitor app1))] ++ [])).
    { simpl exec_. rewrite (tick_observed app1 w' s' Hw1 Hs'), D. reflexivity. }
    rewrite E'. unfold app_result, app_after, app_events. simpl fst. simpl snd.
    split; [reflexivity |]. split; [| reflexivity].
    apply on_status_change_shows. exact (proj2 Hw).
Qed.

Lemma progress_text_sticks_witness :
  exists app,
    let up := Completed (mkCompletedProcess [] 0
                (print_names [py "mssql-server-test"]) []) in
    wired app
    /\ _last_status (monitor app) = Some RUNNING
    /\ progress_text slot_start = Some (py "Starting...")
    /\ Forall (fun w => observes (monitor app) w RUNNING) [up; up; up]
    /\ tray_toolTip
         (app_after (exec_ (triggered slot_start (Spawned (mkChild (Some 0%Z)))
                            :: map timer_timeout [up; up; up]) app))
       = py "MSSQL: Starting...".
Proof.
  pose (app := mkMssqlTrayApp
                 (set_last_status (Some RUNNING)
                    (set_on_status_change (Some bound_on_status_change) test_monitor))
                 (fun s => build_icon (color s))
                 (build_icon (color RUNNING)) (py "MSSQL: Running") true
                 (py "Status: Running") false [] (Some POLL_INTERVAL_MS)).
  exists app. intros up.
  assert (H1 : wired app) by (split; [reflexivity | intros; reflexivity]).
  assert (H2 : _last_status (monitor app) = Some RUNNING) by reflexivity.
  assert (H3 : progress_text slot_start = Some (py "Starting...")) by reflexivity.
  assert (H4 : Forall (fun w => observes (monitor app) w RUNNING) [up; up; up])
    by (repeat constructor).
  destruct (progress_text_sticks app slot_start _ (mkChild (Some 0%Z)) RUNNING
              [up; up; up] H1 H2 H3 H4) as (_ & (_ & Htip & _) & _).
  repeat split; assumption.
Defined.

(** X14. What the tray shows tells the statuses apart: two statuses
    have different colours, different labels and different icons, and
    no label is the progress text of an action. The progress texts
    come with the icon of [UNKNOWN], so that the icon alone does not
    tell an action in progress from an unknown status. *)
Theorem display_identifies_status (s s' : ContainerStatus) :
  (color s = color s' -> s = s')
  /\ (label s = label s' -> s = s')
  /\ (build_icon (color s) = build_icon (color s') -> s = s')
  /\ (forall slot text, progress_text slot = Some text -> text <> label s)
  /\ (forall app, shows app (build_icon (color s)) (label s) ->
                  shows app (build_icon (color s')) (label s') -> s = s').
Proof.
  assert (Hl : label s = label s' -> s = s')
    by (destruct s, s'; intros H; try reflexivity; discriminate H).
  split; [destruct s, s'; intros H; try reflexivity; discriminate H |].
  split; [exact Hl |].
  split; [destruct s, s'; intros H; try reflexivity; discriminate H |].
  split.
  - intros slot text Ht.
    destruct slot; simpl in Ht; try discriminate; injection Ht as <-;
      destruct s; discriminate.
  - intros app (_ & H1 & _) (_ & H2 & _). apply Hl.
    rewrite H1 in H2. apply app_inv_head in H2. exact H2.
Qed.
